(** * lib/browser.js: the tab pool and the life cycle of one page load

    A shallow embedding of [Tabbed_Browser] and [Browser_Tab] and the
    properties of the load state machine: the terminal-state guard of the
    progress handler, the filtering of foreign and non-stop notifications,
    the setup boundary of [_show], and [close].

    Conventions of the embedding.
    - A method of [Browser_Tab] is a computation of the monad [M]: it reads
      and updates the receiver ([this]) and the host ([World]) and either
      returns or throws.  Updates made before a throw stay, as in JavaScript.
    - The host browser ([gBrowser], [Cu], [Ci]) is not part of the file.  Its
      calls are recorded in the [log] of the world.  The three calls made
      inside the [try] of [_show] may throw, as the world's [*_throws] fields
      say.  A host call runs to
      its end before anything else happens: notifications reach the object
      between its methods, not inside them.
    - A callback is the caller's function: calling it is recorded in the log;
      it does not re-enter the object.
    - In [close], [_show] and [_progress] the callbacks, [Cu.reportError] and
      the two removal calls return.  [close_under] and [_show_under] are the
      same two methods where these calls throw as a [Faults] record says;
      with [no_faults] they are [close] and [_show]. *)

From Stdlib Require Import ZArith String List Bool Lia.
Import ListNotations.

(* ------------------------------------------------------------------ *)
(** ** JavaScript values that the file handles *)
(* ------------------------------------------------------------------ *)

(** Handles and flags are only created, stored, tested for truth and compared
    with [!==]; an object is its identity. *)
Inductive jsval : Type :=
| undefined
| null
| jbool (b : bool)
| jobj (id : nat).

(** [if (v)], [!v] *)
Definition truthy (v : jsval) : bool :=
  match v with
  | jbool b => b
  | jobj _ => true
  | undefined | null => false
  end.

(** [a === b] *)
Definition strict_eq (a b : jsval) : bool :=
  match a, b with
  | undefined, undefined => true
  | null, null => true
  | jbool x, jbool y => Bool.eqb x y
  | jobj i, jobj j => Nat.eqb i j
  | _, _ => false
  end.

(** A function value passed as a callback, by identity. *)
Definition Function := nat.

(** A thrown value; the file only calls [toString] on it. *)
Record Exn : Type := Error { toString : string }.

(** [ToInt32], applied by [&] to both operands. *)
Definition to_int32 (z : Z) : Z :=
  ((z + 2147483648) mod 4294967296 - 2147483648)%Z.

(** [a & b] on numbers *)
Definition bit_and (a b : Z) : Z := Z.land (to_int32 a) (to_int32 b).

(* ------------------------------------------------------------------ *)
(** ** Tabbed_Browser *)
(* ------------------------------------------------------------------ *)

Module Tabbed_Browser.

(** [window] and [tabbed_browser] refer to the host, which is the [World]
    below; the record keeps the two counters. *)
Record t : Type := mk {
  n_requests : Z;
  max_requests : Z
}.

(** [new Tabbed_Browser( window, max_requests )] *)
Definition new (max_requests : Z) : t :=
  {| n_requests := 0; max_requests := max_requests |}.

(** [available()], with the receiver after the call *)
Definition available (this : t) : bool * t :=
  ((n_requests this <? max_requests this)%Z, this).

(** [close()]: the body is empty *)
Definition close (this : t) : t := this.

End Tabbed_Browser.

(* ------------------------------------------------------------------ *)
(** ** Browser_Tab: data *)
(* ------------------------------------------------------------------ *)

(** [Browser_Tab.STATE] *)
Inductive STATE : Type := CREATED | LOADING | DISPLAYED | ERROR | CLOSED.

Definition STATE_code (s : STATE) : Z :=
  match s with
  | CREATED => 0
  | LOADING => 1
  | DISPLAYED => 2
  | ERROR => 3
  | CLOSED => 4
  end.

(** The fields of a [Browser_Tab].  [parent] and [tabbed_browser] refer to the
    pool and to the host; the host is the [World].  [browser] and
    [error_code] are not set by the constructor: they start out undefined. *)
Record Browser_Tab : Type := mkTab {
  leave_open : jsval;
  tab : jsval;
  listener : jsval;
  browser : jsval;
  finally_f : option Function;
  catch_f : option Function;
  state : STATE;
  error_code : option Z
}.

Definition set_tab (v : jsval) (t : Browser_Tab) : Browser_Tab :=
  mkTab (leave_open t) v (listener t) (browser t) (finally_f t) (catch_f t)
        (state t) (error_code t).

Definition set_listener (v : jsval) (t : Browser_Tab) : Browser_Tab :=
  mkTab (leave_open t) (tab t) v (browser t) (finally_f t) (catch_f t)
        (state t) (error_code t).

Definition set_browser (v : jsval) (t : Browser_Tab) : Browser_Tab :=
  mkTab (leave_open t) (tab t) (listener t) v (finally_f t) (catch_f t)
        (state t) (error_code t).

Definition set_finally_f (f : option Function) (t : Browser_Tab) : Browser_Tab :=
  mkTab (leave_open t) (tab t) (listener t) (browser t) f (catch_f t)
        (state t) (error_code t).

Definition set_catch_f (f : option Function) (t : Browser_Tab) : Browser_Tab :=
  mkTab (leave_open t) (tab t) (listener t) (browser t) (finally_f t) f
        (state t) (error_code t).

Definition set_state (s : STATE) (t : Browser_Tab) : Browser_Tab :=
  mkTab (leave_open t) (tab t) (listener t) (browser t) (finally_f t) (catch_f t)
        s (error_code t).

Definition set_error_code (c : Z) (t : Browser_Tab) : Browser_Tab :=
  mkTab (leave_open t) (tab t) (listener t) (browser t) (finally_f t) (catch_f t)
        (state t) (Some c).

(** [new Browser_Tab( parent, leave_open )].  [optional] holds the arguments
    after [parent], so [arguments.length] is one more than its length. *)
Definition new_Browser_Tab (parent : Tabbed_Browser.t) (optional : list jsval)
  : Browser_Tab :=
  {| leave_open :=
       if (2 <=? 1 + length optional)%nat
       then nth 0 optional undefined
       else jbool true;
     tab := null;
     listener := null;
     browser := undefined;
     finally_f := None;
     catch_f := None;
     state := CREATED;
     error_code := None |}.

(** [Tabbed_Browser.prototype.make_tab]: [args] are the arguments of the
    call; the parameter [leave_open] is the first of them, or undefined. *)
Definition make_tab (this : Tabbed_Browser.t) (args : list jsval) : Browser_Tab :=
  let leave_open := nth 0 args undefined in
  new_Browser_Tab this [leave_open].

(** [in_initial_state()] *)
Definition in_initial_state (t : Browser_Tab) : bool :=
  (STATE_code (state t) =? STATE_code CREATED)%Z.

(** [in_final_state()] *)
Definition in_final_state (t : Browser_Tab) : bool :=
  (STATE_code DISPLAYED <=? STATE_code (state t))%Z.

(* ------------------------------------------------------------------ *)
(** ** The host *)
(* ------------------------------------------------------------------ *)

(** What the object does to its surroundings, in order. *)
Inductive Event : Type :=
| Call_addTabsProgressListener (l : jsval)
| Call_removeTabsProgressListener (l : jsval)
| Call_addTab (target : string)
| Call_getBrowserForTab (tb : jsval)
| Call_removeTab (tb : jsval)
| Call_reportError (msg : string)
| Call_catch_f (f : Function) (e : Exn)
| Call_finally_f (f : Function) (success : bool).

Record World : Type := mkWorld {
  (** next fresh object identity *)
  next_obj : nat;
  (** listeners registered with [gBrowser] *)
  progress_listeners : list jsval;
  (** tabs open in [gBrowser] *)
  open_tabs : list jsval;
  (** the pane of a tab, as [getBrowserForTab] answers *)
  linkedBrowser : jsval -> jsval;
  (** which setup calls throw, and what *)
  addTabsProgressListener_throws : jsval -> option Exn;
  addTab_throws : string -> option Exn;
  getBrowserForTab_throws : jsval -> option Exn;
  (** everything done so far, oldest first *)
  log : list Event
}.

Definition record (ev : Event) (w : World) : World :=
  mkWorld (next_obj w) (progress_listeners w) (open_tabs w) (linkedBrowser w)
          (addTabsProgressListener_throws w) (addTab_throws w)
          (getBrowserForTab_throws w) (log w ++ [ev]).

Definition set_progress_listeners (ls : list jsval) (w : World) : World :=
  mkWorld (next_obj w) ls (open_tabs w) (linkedBrowser w)
          (addTabsProgressListener_throws w) (addTab_throws w)
          (getBrowserForTab_throws w) (log w).

Definition set_open_tabs (ts : list jsval) (w : World) : World :=
  mkWorld (next_obj w) (progress_listeners w) ts (linkedBrowser w)
          (addTabsProgressListener_throws w) (addTab_throws w)
          (getBrowserForTab_throws w) (log w).

Definition bump_next_obj (w : World) : World :=
  mkWorld (S (next_obj w)) (progress_listeners w) (open_tabs w) (linkedBrowser w)
          (addTabsProgressListener_throws w) (addTab_throws w)
          (getBrowserForTab_throws w) (log w).

Definition without (v : jsval) (l : list jsval) : list jsval :=
  filter (fun x => negb (strict_eq x v)) l.

(* ------------------------------------------------------------------ *)
(** ** Computations over the object and the host *)
(* ------------------------------------------------------------------ *)

Inductive Completion (A : Type) : Type :=
| Normal (a : A)
| Throw (e : Exn).
Arguments Normal {A} a.
Arguments Throw {A} e.

Record Outcome (A : Type) : Type := mkOutcome {
  completion : Completion A;
  this : Browser_Tab;
  world : World
}.
Arguments mkOutcome {A} _ _ _.
Arguments completion {A} _.
Arguments this {A} _.
Arguments world {A} _.

Definition M (A : Type) : Type := Browser_Tab -> World -> Outcome A.

Definition ret {A} (a : A) : M A := fun t w => mkOutcome (Normal a) t w.

Definition bind {A B} (m : M A) (k : A -> M B) : M B :=
  fun t w =>
    match m t w with
    | mkOutcome (Normal a) t' w' => k a t' w'
    | mkOutcome (Throw e) t' w' => mkOutcome (Throw e) t' w'
    end.

Declare Scope js_scope.
Delimit Scope js_scope with js.
Notation "x <- m ;; k" := (bind m (fun x => k))
  (at level 61, m at next level, right associativity) : js_scope.
Notation "m ;; k" := (bind m (fun _ => k))
  (at level 61, right associativity) : js_scope.
Local Open Scope js_scope.

(** [throw e] *)
Definition throw {A} (e : Exn) : M A := fun t w => mkOutcome (Throw e) t w.

(** [try { body } catch ( e ) { handler }] *)
Definition try_catch (body : M unit) (handler : Exn -> M unit) : M unit :=
  fun t w =>
    match body t w with
    | mkOutcome (Normal a) t' w' => mkOutcome (Normal a) t' w'
    | mkOutcome (Throw e) t' w' => handler e t' w'
    end.

(** [this.f] *)
Definition read {A} (f : Browser_Tab -> A) : M A :=
  fun t w => mkOutcome (Normal (f t)) t w.

(** [this.f = v] *)
Definition assign (upd : Browser_Tab -> Browser_Tab) : M unit :=
  fun t w => mkOutcome (Normal tt) (upd t) w.

(** [if ( c ) { m }] *)
Definition when (c : bool) (m : M unit) : M unit :=
  if c then m else ret tt.

Definition emit (ev : Event) : M unit :=
  fun t w => mkOutcome (Normal tt) t (record ev w).

(** An object literal: a fresh identity. *)
Definition new_object : M jsval :=
  fun t w => mkOutcome (Normal (jobj (next_obj w))) t (bump_next_obj w).

(** [this.tabbed_browser.addTabsProgressListener( l )] *)
Definition addTabsProgressListener (l : jsval) : M unit :=
  fun t w =>
    let w1 := record (Call_addTabsProgressListener l) w in
    match addTabsProgressListener_throws w l with
    | Some e => mkOutcome (Throw e) t w1
    | None =>
        mkOutcome (Normal tt) t
          (set_progress_listeners (progress_listeners w1 ++ [l]) w1)
    end.

(** [this.tabbed_browser.removeTabsProgressListener( l )] *)
Definition removeTabsProgressListener (l : jsval) : M unit :=
  fun t w =>
    let w1 := record (Call_removeTabsProgressListener l) w in
    mkOutcome (Normal tt) t
      (set_progress_listeners (without l (progress_listeners w1)) w1).

(** [this.tabbed_browser.addTab( target )]: a new tab each time *)
Definition addTab (target : string) : M jsval :=
  fun t w =>
    let w1 := record (Call_addTab target) w in
    match addTab_throws w target with
    | Some e => mkOutcome (Throw e) t w1
    | None =>
        let tb := jobj (next_obj w1) in
        mkOutcome (Normal tb) t
          (set_open_tabs (open_tabs w1 ++ [tb]) (bump_next_obj w1))
    end.

(** [this.tabbed_browser.getBrowserForTab( tb )] *)
Definition getBrowserForTab (tb : jsval) : M jsval :=
  fun t w =>
    let w1 := record (Call_getBrowserForTab tb) w in
    match getBrowserForTab_throws w tb with
    | Some e => mkOutcome (Throw e) t w1
    | None => mkOutcome (Normal (linkedBrowser w tb)) t w1
    end.

(** [this.tabbed_browser.removeTab( tb )] *)
Definition removeTab (tb : jsval) : M unit :=
  fun t w =>
    let w1 := record (Call_removeTab tb) w in
    mkOutcome (Normal tt) t (set_open_tabs (without tb (open_tabs w1)) w1).

(** [Cu.reportError( msg )] *)
Definition reportError (msg : string) : M unit := emit (Call_reportError msg).

(** [if ( this.catch_f ) this.catch_f( e )] *)
Definition call_catch_f (e : Exn) : M unit :=
  f <- read catch_f ;;
  match f with
  | Some g => emit (Call_catch_f g e)
  | None => ret tt
  end.

(** [if ( this.finally_f ) this.finally_f( success )] *)
Definition call_finally_f (success : bool) : M unit :=
  f <- read finally_f ;;
  match f with
  | Some g => emit (Call_finally_f g success)
  | None => ret tt
  end.

(* ------------------------------------------------------------------ *)
(** ** Browser_Tab: methods *)
(* ------------------------------------------------------------------ *)

(** [Browser_Tab.prototype.close] *)
Definition close : M unit :=
  s <- read state ;;
  if (STATE_code s =? STATE_code CLOSED)%Z then ret tt
  else
    l <- read listener ;;
    when (truthy l)
      (removeTabsProgressListener l ;;
       assign (set_listener null)) ;;
    tb <- read tab ;;
    when (truthy tb)
      (lo <- read leave_open ;;
       when (negb (truthy lo)) (removeTab tb) ;;
       assign (set_tab null)) ;;
    assign (set_state CLOSED).

(** ["Unexpected exception in Browser_Tab.show(): " + e.toString()] *)
Definition show_message (e : Exn) : string :=
  ("Unexpected exception in Browser_Tab.show(): " ++ toString e)%string.
Arguments show_message : simpl never.

(** [Browser_Tab.prototype._show] *)
Definition _show (target : string) : M unit :=
  try_catch
    (l <- new_object ;;
     assign (set_listener l) ;;
     l' <- read listener ;;
     addTabsProgressListener l' ;;
     tb <- addTab target ;;
     assign (set_tab tb) ;;
     tb' <- read tab ;;
     b <- getBrowserForTab tb' ;;
     assign (set_browser b))
    (fun e =>
       assign (set_state ERROR) ;;
       reportError (show_message e) ;;
       call_catch_f e ;;
       call_finally_f false).

(** The action object returned by [load]. *)
Record Action : Type := mkAction {
  go : option Function -> option Function -> M unit
}.

(** [Browser_Tab.prototype.load].  A callback argument is a function, or it
    is left out ([None]). *)
Definition load (target : string) : Action :=
  {| go := fun finally_f catch_f =>
       assign (set_finally_f finally_f) ;;
       assign (set_catch_f catch_f) ;;
       _show target |}.

Section Progress.

(** [Ci.nsIWebProgressListener.STATE_STOP], a constant of the host. *)
Variable STATE_STOP : Z.

(** [!(state & Ci.nsIWebProgressListener.STATE_STOP)] is false *)
Definition is_stop (flags : Z) : bool :=
  negb (bit_and flags STATE_STOP =? 0)%Z.

(** [Browser_Tab.prototype._progress]; [flags] is the parameter [state]. *)
Definition _progress (browser_ controller browse_request : jsval)
           (flags stop_status : Z) : M unit :=
  final <- read in_final_state ;;
  if final then ret tt
  else
    b <- read browser ;;
    if negb (strict_eq b browser_) then ret tt
    else if negb (is_stop flags) then ret tt
    else
      let success := (stop_status =? 0)%Z in
      (if success
       then assign (set_state DISPLAYED)
       else (assign (set_state ERROR) ;;
             assign (set_error_code stop_status))) ;;
      call_finally_f success.

End Progress.

(* ------------------------------------------------------------------ *)
(** ** Calls outside the [try] that throw *)
(* ------------------------------------------------------------------ *)

(** Which of the calls that no [try] of the file covers throw, and what:
    [Cu.reportError] and the two callbacks, called in the [catch] block of
    [_show], and the two removal calls of [close]. *)
Record Faults : Type := mkFaults {
  reportError_throws : string -> option Exn;
  catch_f_throws : Function -> Exn -> option Exn;
  finally_f_throws : Function -> bool -> option Exn;
  removeTabsProgressListener_throws : jsval -> option Exn;
  removeTab_throws : jsval -> option Exn
}.

Definition no_faults : Faults :=
  {| reportError_throws := fun _ => None;
     catch_f_throws := fun _ _ => None;
     finally_f_throws := fun _ _ => None;
     removeTabsProgressListener_throws := fun _ => None;
     removeTab_throws := fun _ => None |}.

(** A call that is made, recorded, and then returns or throws. *)
Definition call_or_throw (ev : Event) (fault : option Exn) : M unit :=
  fun t w =>
    match fault with
    | Some x => mkOutcome (Throw x) t (record ev w)
    | None => mkOutcome (Normal tt) t (record ev w)
    end.

Section Under.

Variable fx : Faults.

(** [Cu.reportError( msg )] *)
Definition reportError_under (msg : string) : M unit :=
  call_or_throw (Call_reportError msg) (reportError_throws fx msg).

(** [if ( this.catch_f ) this.catch_f( e )] *)
Definition call_catch_f_under (e : Exn) : M unit :=
  f <- read catch_f ;;
  match f with
  | Some g => call_or_throw (Call_catch_f g e) (catch_f_throws fx g e)
  | None => ret tt
  end.

(** [if ( this.finally_f ) this.finally_f( success )] *)
Definition call_finally_f_under (success : bool) : M unit :=
  f <- read finally_f ;;
  match f with
  | Some g =>
      call_or_throw (Call_finally_f g success) (finally_f_throws fx g success)
  | None => ret tt
  end.

(** [this.tabbed_browser.removeTabsProgressListener( l )] *)
Definition removeTabsProgressListener_under (l : jsval) : M unit :=
  fun t w =>
    let w1 := record (Call_removeTabsProgressListener l) w in
    match removeTabsProgressListener_throws fx l with
    | Some x => mkOutcome (Throw x) t w1
    | None =>
        mkOutcome (Normal tt) t
          (set_progress_listeners (without l (progress_listeners w1)) w1)
    end.

(** [this.tabbed_browser.removeTab( tb )] *)
Definition removeTab_under (tb : jsval) : M unit :=
  fun t w =>
    let w1 := record (Call_removeTab tb) w in
    match removeTab_throws fx tb with
    | Some x => mkOutcome (Throw x) t w1
    | None =>
        mkOutcome (Normal tt) t (set_open_tabs (without tb (open_tabs w1)) w1)
    end.

(** [Browser_Tab.prototype.close] *)
Definition close_under : M unit :=
  s <- read state ;;
  if (STATE_code s =? STATE_code CLOSED)%Z then ret tt
  else
    l <- read listener ;;
    when (truthy l)
      (removeTabsProgressListener_under l ;;
       assign (set_listener null)) ;;
    tb <- read tab ;;
    when (truthy tb)
      (lo <- read leave_open ;;
       when (negb (truthy lo)) (removeTab_under tb) ;;
       assign (set_tab null)) ;;
    assign (set_state CLOSED).

(** [Browser_Tab.prototype._show] *)
Definition _show_under (target : string) : M unit :=
  try_catch
    (l <- new_object ;;
     assign (set_listener l) ;;
     l' <- read listener ;;
     addTabsProgressListener l' ;;
     tb <- addTab target ;;
     assign (set_tab tb) ;;
     tb' <- read tab ;;
     b <- getBrowserForTab tb' ;;
     assign (set_browser b))
    (fun e =>
       assign (set_state ERROR) ;;
       reportError_under (show_message e) ;;
       call_catch_f_under e ;;
       call_finally_f_under false).

(** [Browser_Tab.prototype.load] *)
Definition load_under (target : string) : Action :=
  {| go := fun finally_f catch_f =>
       assign (set_finally_f finally_f) ;;
       assign (set_catch_f catch_f) ;;
       _show_under target |}.

End Under.

(* ------------------------------------------------------------------ *)
(** ** A life of deliveries *)
(* ------------------------------------------------------------------ *)

(** What reaches the object after [go]: the host calls the listener, or the
    owner calls [close]. *)
Inductive Incoming : Type :=
| onStateChange (browser_ controller browse_request : jsval)
                (flags stop_status : Z)
| close_call.

Section Deliveries.

Variable STATE_STOP : Z.

Definition deliver (i : Incoming) : M unit :=
  match i with
  | onStateChange b c r flags stop_status =>
      _progress STATE_STOP b c r flags stop_status
  | close_call => close
  end.

(** The deliveries one after the other, each run to its end. *)
Fixpoint deliver_all (ins : list Incoming) (t : Browser_Tab) (w : World)
  : Browser_Tab * World :=
  match ins with
  | [] => (t, w)
  | i :: rest =>
      let r := deliver i t w in
      deliver_all rest (this r) (world r)
  end.

End Deliveries.

Definition is_finally_call (ev : Event) : bool :=
  match ev with
  | Call_finally_f _ _ => true
  | _ => false
  end.

Definition is_removeTab_call (ev : Event) : bool :=
  match ev with
  | Call_removeTab _ => true
  | _ => false
  end.

Definition is_removeListener_call (ev : Event) : bool :=
  match ev with
  | Call_removeTabsProgressListener _ => true
  | _ => false
  end.

Definition is_callback_call (ev : Event) : bool :=
  match ev with
  | Call_finally_f _ _ | Call_catch_f _ _ => true
  | _ => false
  end.

Definition count (p : Event -> bool) (l : list Event) : nat :=
  length (filter p l).

(* ------------------------------------------------------------------ *)
(** ** A life with starts in it *)
(* ------------------------------------------------------------------ *)

(** What an owner and the host can do with the object, a start among them.
    Nothing in the file stops an owner from starting twice, or after
    [close]. *)
Inductive Step : Type :=
| start (target : string) (finally_f catch_f : option Function)
| arrive (i : Incoming).

Section Steps.

Variable STATE_STOP : Z.

Definition perform (s : Step) : M unit :=
  match s with
  | start target f c => go (load target) f c
  | arrive i => deliver STATE_STOP i
  end.

Fixpoint perform_all (steps : list Step) (t : Browser_Tab) (w : World)
  : Browser_Tab * World :=
  match steps with
  | [] => (t, w)
  | s :: rest =>
      let r := perform s t w in
      perform_all rest (this r) (world r)
  end.

End Steps.

Definition is_catch_call (ev : Event) : bool :=
  match ev with
  | Call_catch_f _ _ => true
  | _ => false
  end.

Definition is_addTab_call (ev : Event) : bool :=
  match ev with
  | Call_addTab _ => true
  | _ => false
  end.

Definition is_getBrowserForTab_call (ev : Event) : bool :=
  match ev with
  | Call_getBrowserForTab _ => true
  | _ => false
  end.

(* ------------------------------------------------------------------ *)
(** ** What the host does to a setup *)
(* ------------------------------------------------------------------ *)

(** [_show] makes a listener object, the next fresh one, and the host makes
    the tab after it. *)
Definition fresh_listener (w : World) : jsval := jobj (next_obj w).
Definition fresh_tab (w : World) : jsval := jobj (S (next_obj w)).

(** The first of the three calls in the [try] of [_show] that throws, throws
    [e]. *)
Inductive setup_throws (w : World) (target : string) (e : Exn) : Prop :=
| throws_in_addTabsProgressListener :
    addTabsProgressListener_throws w (fresh_listener w) = Some e ->
    setup_throws w target e
| throws_in_addTab :
    addTabsProgressListener_throws w (fresh_listener w) = None ->
    addTab_throws w target = Some e ->
    setup_throws w target e
| throws_in_getBrowserForTab :
    addTabsProgressListener_throws w (fresh_listener w) = None ->
    addTab_throws w target = None ->
    getBrowserForTab_throws w (fresh_tab w) = Some e ->
    setup_throws w target e.

(** None of the three calls throws. *)
Inductive setup_returns (w : World) (target : string) : Prop :=
| returns_all :
    addTabsProgressListener_throws w (fresh_listener w) = None ->
    addTab_throws w target = None ->
    getBrowserForTab_throws w (fresh_tab w) = None ->
    setup_returns w target.

Definition is_setup_call (ev : Event) : bool :=
  match ev with
  | Call_addTabsProgressListener _ | Call_addTab _ | Call_getBrowserForTab _ =>
      true
  | _ => false
  end.

Definition is_reportError_call (ev : Event) : bool :=
  match ev with
  | Call_reportError _ => true
  | _ => false
  end.

(** The calls that one [close] makes on the host. *)
Definition removal_calls (t : Browser_Tab) : list Event :=
  (if truthy (listener t)
   then [Call_removeTabsProgressListener (listener t)] else [])
  ++ (if truthy (tab t) && negb (truthy (leave_open t))
      then [Call_removeTab (tab t)] else []).

(* ------------------------------------------------------------------ *)
(** ** A host to run the scenarios on *)
(* ------------------------------------------------------------------ *)

Module Scenario.

(** [nsIWebProgressListener.STATE_START] and [STATE_STOP] in Firefox *)
Definition STATE_START : Z := 1.
Definition STATE_STOP : Z := 16.

(** a stop status other than success *)
Definition failure_code : Z := 0x804B0002.

Definition pool : Tabbed_Browser.t := Tabbed_Browser.new 1.

Definition pane_of (tb : jsval) : jsval :=
  match tb with
  | jobj n => jobj (1000 + n)
  | _ => undefined
  end.

(** An empty browser whose calls all return. *)
Definition calm : World :=
  {| next_obj := 0;
     progress_listeners := [];
     open_tabs := [];
     linkedBrowser := pane_of;
     addTabsProgressListener_throws := fun _ => None;
     addTab_throws := fun _ => None;
     getBrowserForTab_throws := fun _ => None;
     log := [] |}.

Definition malformed : Exn := Error "NS_ERROR_MALFORMED_URI".

(** An empty browser whose [addTab] throws. *)
Definition addTab_fails : World :=
  {| next_obj := 0;
     progress_listeners := [];
     open_tabs := [];
     linkedBrowser := pane_of;
     addTabsProgressListener_throws := fun _ => None;
     addTab_throws := fun _ => Some malformed;
     getBrowserForTab_throws := fun _ => None;
     log := [] |}.

(** An empty browser whose [addTabsProgressListener] throws. *)
Definition addTabsProgressListener_fails : World :=
  {| next_obj := 0;
     progress_listeners := [];
     open_tabs := [];
     linkedBrowser := pane_of;
     addTabsProgressListener_throws := fun _ => Some malformed;
     addTab_throws := fun _ => None;
     getBrowserForTab_throws := fun _ => None;
     log := [] |}.

(** An empty browser whose [getBrowserForTab] throws. *)
Definition getBrowserForTab_fails : World :=
  {| next_obj := 0;
     progress_listeners := [];
     open_tabs := [];
     linkedBrowser := pane_of;
     addTabsProgressListener_throws := fun _ => None;
     addTab_throws := fun _ => None;
     getBrowserForTab_throws := fun _ => Some malformed;
     log := [] |}.

Definition boom : Exn := Error "TypeError: boom".

(** The failure callback throws. *)
Definition catch_f_fails : Faults :=
  {| reportError_throws := fun _ => None;
     catch_f_throws := fun _ _ => Some boom;
     finally_f_throws := fun _ _ => None;
     removeTabsProgressListener_throws := fun _ => None;
     removeTab_throws := fun _ => None |}.

(** The host's [removeTab] throws. *)
Definition removeTab_fails : Faults :=
  {| reportError_throws := fun _ => None;
     catch_f_throws := fun _ _ => None;
     finally_f_throws := fun _ _ => None;
     removeTabsProgressListener_throws := fun _ => None;
     removeTab_throws := fun _ => Some boom |}.

Definition target : string := "https://example.test".
Definition onComplete : Function := 7%nat.
Definition onFailure : Function := 8%nat.

(** [pool.make_tab( args ).load( target ).go( onComplete, onFailure )] *)
Definition started (args : list jsval) (w : World) : Outcome unit :=
  go (load target) (Some onComplete) (Some onFailure) (make_tab pool args) w.

End Scenario.

(* ------------------------------------------------------------------ *)
(** ** Basic facts *)
(* ------------------------------------------------------------------ *)

Lemma strict_eq_spec (a b : jsval) : strict_eq a b = true <-> a = b.
Proof.
  destruct a as [| |x|i], b as [| |y|j]; simpl;
    try (split; [discriminate | congruence]); try tauto.
  - rewrite Bool.eqb_true_iff. split; congruence.
  - rewrite Nat.eqb_eq. split; congruence.
Qed.

Lemma strict_eq_refl (a : jsval) : strict_eq a a = true.
Proof. apply strict_eq_spec; reflexivity. Qed.

Lemma strict_eq_neq (a b : jsval) : a <> b -> strict_eq a b = false.
Proof.
  intros H. destruct (strict_eq a b) eqn:E; [|reflexivity].
  apply strict_eq_spec in E. contradiction.
Qed.

Lemma count_app (p : Event -> bool) (l l' : list Event) :
  count p (l ++ l') = (count p l + count p l')%nat.
Proof. unfold count. rewrite filter_app, length_app. reflexivity. Qed.

Lemma not_In_without (v : jsval) (l : list jsval) : ~ In v (without v l).
Proof.
  unfold without. intros H. apply filter_In in H as [_ H].
  rewrite strict_eq_refl in H. discriminate.
Qed.

Lemma final_states (t : Browser_Tab) :
  in_final_state t = true <->
  state t = DISPLAYED \/ state t = ERROR \/ state t = CLOSED.
Proof.
  unfold in_final_state. destruct (state t); simpl; split; intros H;
    try discriminate; try reflexivity; auto;
    destruct H as [H|[H|H]]; discriminate.
Qed.

(** Counts over a log that grew by explicit calls. *)
Ltac count_log :=
  unfold count; rewrite ?filter_app, ?length_app; cbn; try lia.

(** Unfolds a method down to the record operations. *)
Ltac js_unfold :=
  unfold go, load, _show, close, _progress, call_finally_f, call_catch_f,
    reportError, when, try_catch, bind, ret, throw, read, assign, emit,
    new_object, addTabsProgressListener, removeTabsProgressListener,
    addTab, getBrowserForTab, removeTab.

(** The progress handler, as one equation: it returns at once on any of its
    three guards, and otherwise enters a final state and calls [finally_f]. *)
Lemma _progress_eq (STATE_STOP : Z) (b c r : jsval) (flags stop_status : Z)
      (t : Browser_Tab) (w : World) :
  _progress STATE_STOP b c r flags stop_status t w =
  if in_final_state t || negb (strict_eq (browser t) b)
     || negb (is_stop STATE_STOP flags)
  then mkOutcome (Normal tt) t w
  else
    let success := (stop_status =? 0)%Z in
    mkOutcome (Normal tt)
      (if success then set_state DISPLAYED t
       else set_error_code stop_status (set_state ERROR t))
      (match finally_f t with
       | Some f => record (Call_finally_f f success) w
       | None => w
       end).
Proof.
  js_unfold. cbn.
  destruct (in_final_state t); cbn; [reflexivity|].
  destruct (strict_eq (browser t) b); cbn; [|reflexivity].
  destruct (is_stop STATE_STOP flags); cbn; [|reflexivity].
  destruct (stop_status =? 0)%Z; cbn; destruct (finally_f t); reflexivity.
Qed.

(* ------------------------------------------------------------------ *)
(** ** [load( target ).go( finally_f, catch_f )] *)
(* ------------------------------------------------------------------ *)

Lemma go_when_setup_returns (target : string) (f c : option Function)
      (t : Browser_Tab) (w : World) :
  setup_returns w target ->
  let r := go (load target) f c t w in
  completion r = Normal tt
  /\ this r = mkTab (leave_open t) (fresh_tab w) (fresh_listener w)
                    (linkedBrowser w (fresh_tab w)) f c (state t) (error_code t)
  /\ log (world r) =
       log w ++ [Call_addTabsProgressListener (fresh_listener w);
                 Call_addTab target;
                 Call_getBrowserForTab (fresh_tab w)]
  /\ progress_listeners (world r) = progress_listeners w ++ [fresh_listener w]
  /\ open_tabs (world r) = open_tabs w ++ [fresh_tab w].
Proof.
  intros [H1 H2 H3]. unfold fresh_listener, fresh_tab in *.
  js_unfold. cbn. rewrite H1. cbn. rewrite H2. cbn. rewrite H3. cbn.
  rewrite <- !app_assoc. cbn. repeat split; reflexivity.
Qed.

Lemma go_when_setup_throws (target : string) (f c : option Function)
      (t : Browser_Tab) (w : World) (e : Exn) :
  setup_throws w target e ->
  let r := go (load target) f c t w in
  completion r = Normal tt
  /\ state (this r) = ERROR
  /\ error_code (this r) = error_code t
  /\ finally_f (this r) = f
  /\ catch_f (this r) = c
  /\ listener (this r) = fresh_listener w
  /\ exists calls,
       forallb is_setup_call calls = true
       /\ log (world r) =
            log w ++ calls
            ++ [Call_reportError (show_message e)]
            ++ match c with Some g => [Call_catch_f g e] | None => [] end
            ++ match f with Some g => [Call_finally_f g false] | None => [] end.
Proof.
  intros H.
  destruct H as [H1 | H1 H2 | H1 H2 H3]; unfold fresh_listener, fresh_tab in *.
  - destruct c, f; js_unfold; cbn; rewrite H1; cbn; repeat split;
      exists [Call_addTabsProgressListener (jobj (next_obj w))];
      (split; [reflexivity|]); rewrite <- ?app_assoc; reflexivity.
  - destruct c, f; js_unfold; cbn; rewrite H1; cbn; rewrite H2; cbn;
      repeat split;
      exists [Call_addTabsProgressListener (jobj (next_obj w));
              Call_addTab target];
      (split; [reflexivity|]); rewrite <- ?app_assoc; reflexivity.
  - destruct c, f; js_unfold; cbn; rewrite H1; cbn; rewrite H2; cbn;
      rewrite H3; cbn; repeat split;
      exists [Call_addTabsProgressListener (jobj (next_obj w));
              Call_addTab target;
              Call_getBrowserForTab (jobj (S (next_obj w)))];
      (split; [reflexivity|]); rewrite <- ?app_assoc; reflexivity.
Qed.

(** A setup that fails undoes nothing and calls no removal. *)
Lemma go_never_removes (target : string) (f c : option Function)
      (t : Browser_Tab) (w : World) :
  let r := go (load target) f c t w in
  incl (progress_listeners w) (progress_listeners (world r))
  /\ incl (open_tabs w) (open_tabs (world r))
  /\ count is_removeListener_call (log (world r))
     = count is_removeListener_call (log w)
  /\ count is_removeTab_call (log (world r)) = count is_removeTab_call (log w).
Proof.
  js_unfold. cbn.
  destruct (addTabsProgressListener_throws w (jobj (next_obj w))) eqn:H1; cbn;
    [|destruct (addTab_throws w target) eqn:H2; cbn;
      [|destruct (getBrowserForTab_throws w (jobj (S (next_obj w)))) eqn:H3; cbn]];
    destruct c, f; cbn;
    repeat split;
    try apply incl_refl; try (apply incl_appl, incl_refl); count_log.
Qed.

(* ------------------------------------------------------------------ *)
(** ** [close()] *)
(* ------------------------------------------------------------------ *)

Lemma close_when_CLOSED (t : Browser_Tab) (w : World) :
  state t = CLOSED -> close t w = mkOutcome (Normal tt) t w.
Proof. intros H. js_unfold. cbn. rewrite H. reflexivity. Qed.

Lemma close_effect (t : Browser_Tab) (w : World) :
  state t <> CLOSED ->
  let r := close t w in
  completion r = Normal tt
  /\ this r = mkTab (leave_open t)
                   (if truthy (tab t) then null else tab t)
                   (if truthy (listener t) then null else listener t)
                   (browser t) (finally_f t) (catch_f t) CLOSED (error_code t)
  /\ log (world r) = log w ++ removal_calls t
  /\ progress_listeners (world r)
     = (if truthy (listener t)
        then without (listener t) (progress_listeners w)
        else progress_listeners w)
  /\ open_tabs (world r)
     = (if truthy (tab t) && negb (truthy (leave_open t))
        then without (tab t) (open_tabs w)
        else open_tabs w).
Proof.
  intros H. destruct t as [lo tb l b f c s ec]. cbn in *.
  unfold removal_calls. js_unfold. cbn.
  destruct s; try contradiction; cbn;
    destruct (truthy l); cbn; destruct (truthy tb); cbn;
    destruct (truthy lo); cbn;
    rewrite <- ?app_assoc, ?app_nil_r; cbn; repeat split; reflexivity.
Qed.

Lemma close_completes (t : Browser_Tab) (w : World) :
  completion (close t w) = Normal tt /\ state (this (close t w)) = CLOSED.
Proof.
  destruct (state t) eqn:E;
    try (rewrite close_when_CLOSED by exact E; (split; [reflexivity | exact E]));
    assert (N : state t <> CLOSED) by (rewrite E; discriminate);
    destruct (close_effect t w N) as (H1 & H2 & _);
    (split; [exact H1 | rewrite H2; reflexivity]).
Qed.

Lemma close_calls_no_callback (t : Browser_Tab) (w : World) :
  count is_callback_call (log (world (close t w)))
  = count is_callback_call (log w)
  /\ count is_finally_call (log (world (close t w)))
     = count is_finally_call (log w).
Proof.
  destruct (state t) eqn:E;
    try (rewrite close_when_CLOSED by exact E; split; reflexivity);
    assert (N : state t <> CLOSED) by (rewrite E; discriminate);
    destruct (close_effect t w N) as (_ & _ & H3 & _);
    rewrite H3, !count_app; unfold removal_calls;
    destruct (truthy (listener t)), (truthy (tab t)), (truthy (leave_open t));
    split; count_log.
Qed.

(* ------------------------------------------------------------------ *)
(** ** The progress handler and the terminal-state guard *)
(* ------------------------------------------------------------------ *)

Section Guard.

Variable STATE_STOP : Z.

(** In a final state the handler returns at once. *)
Lemma _progress_in_final_state (b c r : jsval) (flags stop_status : Z)
      (t : Browser_Tab) (w : World) :
  in_final_state t = true ->
  _progress STATE_STOP b c r flags stop_status t w = mkOutcome (Normal tt) t w.
Proof. intros H. rewrite _progress_eq, H. reflexivity. Qed.

(** One delivery keeps a final state final and calls nothing there; from
    any state it calls [finally_f] at most once, and only on entering a
    final state. *)
Lemma deliver_step (i : Incoming) (t : Browser_Tab) (w : World) :
  let r := deliver STATE_STOP i t w in
  (in_final_state t = true ->
   in_final_state (this r) = true
   /\ count is_finally_call (log (world r)) = count is_finally_call (log w))
  /\ (count is_finally_call (log (world r)) = count is_finally_call (log w)
      \/ (in_final_state (this r) = true
          /\ count is_finally_call (log (world r))
             = S (count is_finally_call (log w)))).
Proof.
  destruct i as [b c r flags st|]; cbn [deliver].
  - rewrite _progress_eq.
    destruct (in_final_state t) eqn:F; cbn; [auto|].
    split; [discriminate|].
    destruct (negb (strict_eq (browser t) b) || negb (is_stop STATE_STOP flags));
      cbn; [auto|].
    destruct (finally_f t) as [f|]; cbn.
    + right. split; [destruct (st =? 0)%Z; reflexivity | count_log].
    + left. reflexivity.
  - destruct (close_completes t w) as [_ Hs].
    destruct (close_calls_no_callback t w) as [_ Hc].
    split; [intros _; split|left]; try exact Hc.
    apply final_states. auto.
Qed.

Lemma deliver_all_at_most_once (ins : list Incoming) :
  forall (t : Browser_Tab) (w : World),
    (count is_finally_call (log (snd (deliver_all STATE_STOP ins t w)))
     <= count is_finally_call (log w) + 1)%nat
    /\ (in_final_state t = true ->
        count is_finally_call (log (snd (deliver_all STATE_STOP ins t w)))
        = count is_finally_call (log w)).
Proof.
  induction ins as [|i rest IH]; intros t w; cbn [deliver_all snd].
  - split; [lia | reflexivity].
  - destruct (deliver_step i t w) as [Hfin Hstep].
    destruct (IH (this (deliver STATE_STOP i t w))
                 (world (deliver STATE_STOP i t w))) as [IH1 IH2].
    split.
    + destruct Hstep as [Heq | [Hf Heq]].
      * lia.
      * specialize (IH2 Hf). lia.
    + intros F. destruct (Hfin F) as [Hf Heq].
      specialize (IH2 Hf). lia.
Qed.

(** In state CLOSED nothing that arrives has any effect. *)
Lemma deliver_all_when_CLOSED (ins : list Incoming) (t : Browser_Tab)
      (w : World) :
  state t = CLOSED -> deliver_all STATE_STOP ins t w = (t, w).
Proof.
  intros H. induction ins as [|i rest IH]; cbn [deliver_all]; [reflexivity|].
  destruct i as [b c r flags st|]; cbn [deliver].
  - rewrite _progress_in_final_state by (apply final_states; auto).
    exact IH.
  - rewrite close_when_CLOSED by exact H. exact IH.
Qed.

End Guard.

(* ------------------------------------------------------------------ *)
(** ** The claims about the load state machine *)
(* ------------------------------------------------------------------ *)

(** C1: the completion callback [finally_f] is called at most once in the
    life of a [Browser_Tab].  After [load( target ).go( f, c )] on any host,
    whatever notifications (and calls of [close]) follow, the log holds at
    most one more call of [finally_f] than before; the same bound holds for
    an object that was never started.  Once the object is in a final state
    (DISPLAYED, ERROR or CLOSED) every further notification, a stop event
    for its own pane included, returns at the guard: it calls nothing and
    changes nothing. *)
Theorem finally_f_at_most_once :
  forall (STATE_STOP : Z),
    (forall (target : string) (f c : option Function) (t : Browser_Tab)
            (w : World) (ins : list Incoming),
        let r := go (load target) f c t w in
        (count is_finally_call
               (log (snd (deliver_all STATE_STOP ins (this r) (world r))))
         <= count is_finally_call (log w) + 1)%nat)
    /\ (forall (t : Browser_Tab) (w : World) (ins : list Incoming),
           (count is_finally_call (log (snd (deliver_all STATE_STOP ins t w)))
            <= count is_finally_call (log w) + 1)%nat)
    /\ (forall (t : Browser_Tab) (w : World) (b c r : jsval)
               (flags stop_status : Z),
           in_final_state t = true ->
           _progress STATE_STOP b c r flags stop_status t w
           = mkOutcome (Normal tt) t w).
Proof.
  intros STATE_STOP. split; [|split].
  2: { intros t w ins.
       apply (deliver_all_at_most_once STATE_STOP ins t w). }
  - intros target f c t w ins r.
    destruct (deliver_all_at_most_once STATE_STOP ins (this r) (world r))
      as [Hle Hfin].
    assert (Hgo : count is_finally_call (log (world r))
                  = count is_finally_call (log w)
                  \/ (in_final_state (this r) = true
                      /\ count is_finally_call (log (world r))
                         = S (count is_finally_call (log w)))).
    { subst r. js_unfold. cbn.
      destruct (addTabsProgressListener_throws w (jobj (next_obj w))); cbn;
        [|destruct (addTab_throws w target); cbn;
          [|destruct (getBrowserForTab_throws w (jobj (S (next_obj w)))); cbn]];
        destruct c, f; cbn;
        try (left; count_log; fail); right; (split; [reflexivity | count_log]). }
    destruct Hgo as [Heq | [Hf Heq]].
    + lia.
    + specialize (Hfin Hf). lia.
  - intros t w b c r flags st F. apply _progress_in_final_state. exact F.
Qed.

(** C2: after [close()] every notification is dropped.  Whatever state the
    object was in, after [close] it is CLOSED, and on any later host state
    every sequence of deliveries leaves the object and the host as they are:
    no callback is called and the state stays CLOSED.  This holds for a
    success stop event on the object's own pane as well. *)
Theorem close_suppresses_callbacks :
  forall (STATE_STOP : Z) (t : Browser_Tab) (w : World),
    let r := close t w in
    state (this r) = CLOSED
    /\ (forall (ins : list Incoming) (w2 : World),
           deliver_all STATE_STOP ins (this r) w2 = (this r, w2))
    /\ (forall (c rq : jsval) (flags : Z) (w2 : World),
           _progress STATE_STOP (browser (this r)) c rq flags 0 (this r) w2
           = mkOutcome (Normal tt) (this r) w2).
Proof.
  intros STATE_STOP t w r.
  destruct (close_completes t w) as [_ Hs]. fold r in Hs.
  split; [exact Hs|]. split.
  - intros ins w2. apply deliver_all_when_CLOSED. exact Hs.
  - intros c rq flags w2. apply _progress_in_final_state.
    apply final_states. auto.
Qed.

(** No method assigns [leave_open]: it stays as the constructor set it. *)
Lemma leave_open_kept (STATE_STOP : Z) (target : string)
      (f c : option Function) (ins : list Incoming) (t : Browser_Tab)
      (w : World) :
  leave_open (this (go (load target) f c t w)) = leave_open t
  /\ leave_open (fst (deliver_all STATE_STOP ins t w)) = leave_open t.
Proof.
  split.
  - js_unfold. cbn.
    destruct (addTabsProgressListener_throws w (jobj (next_obj w))); cbn;
      [|destruct (addTab_throws w target); cbn;
        [|destruct (getBrowserForTab_throws w (jobj (S (next_obj w)))); cbn]];
      destruct c, f; reflexivity.
  - revert t w. induction ins as [|i rest IH]; intros t w; cbn [deliver_all fst];
      [reflexivity|].
    rewrite IH. destruct i as [b cr rq flags st|]; cbn [deliver].
    + rewrite _progress_eq.
      destruct (in_final_state t || negb (strict_eq (browser t) b)
                || negb (is_stop STATE_STOP flags)); cbn; [reflexivity|].
      destruct (st =? 0)%Z; reflexivity.
    + destruct (state t) eqn:E;
        try (rewrite close_when_CLOSED by exact E; reflexivity);
        assert (N : state t <> CLOSED) by (rewrite E; discriminate);
        destruct (close_effect t w N) as (_ & H2 & _); rewrite H2; reflexivity.
Qed.

(** C3, as the spec states it, fails: a tab made by [make_tab()] without an
    argument does not have [leave_open] true.  [make_tab] always passes two
    arguments to the constructor, so the constructor's default does not
    apply and [leave_open] is undefined; after a successful start, [close]
    calls [removeTab]. *)
Lemma make_tab_default_is_not_true :
  leave_open (make_tab Scenario.pool []) <> jbool true
  /\ truthy (leave_open (make_tab Scenario.pool [])) = false
  /\ (let r := Scenario.started [] Scenario.calm in
      let r2 := close (this r) (world r) in
      count is_removeTab_call (log (world r)) = 0%nat
      /\ count is_removeTab_call (log (world r2)) = 1%nat
      /\ count is_removeTab_call (log (world r2)) <> 0%nat).
Proof.
  split; [discriminate|]. split; [reflexivity|].
  cbv zeta. split; [reflexivity|]. split; [reflexivity|]. discriminate.
Qed.

(** C3, amended: [make_tab( v )] gives a tab whose [leave_open] is [v], and
    [make_tab()] one whose [leave_open] is undefined, which counts as false;
    only the constructor called without its second argument defaults to
    true.  On a tab that is not CLOSED and holds a tab handle, [close] calls
    [removeTab] exactly once, on that handle, when [leave_open] is as
    [make_tab()] or [make_tab( false )] set it; when it is as
    [make_tab( true )] set it, [close] never calls [removeTab]. *)
Theorem leave_open_decides_removeTab :
  forall (pool : Tabbed_Browser.t),
    leave_open (make_tab pool []) = undefined
    /\ (forall v rest, leave_open (make_tab pool (v :: rest)) = v)
    /\ leave_open (new_Browser_Tab pool []) = jbool true
    /\ (forall (t : Browser_Tab) (w : World),
           (leave_open t = leave_open (make_tab pool [])
            \/ leave_open t = leave_open (make_tab pool [jbool false])) ->
           truthy (tab t) = true ->
           state t <> CLOSED ->
           count is_removeTab_call (log (world (close t w)))
           = S (count is_removeTab_call (log w))
           /\ In (Call_removeTab (tab t)) (log (world (close t w))))
    /\ (forall (t : Browser_Tab) (w : World),
           leave_open t = leave_open (make_tab pool [jbool true]) ->
           count is_removeTab_call (log (world (close t w)))
           = count is_removeTab_call (log w)).
Proof.
  intros pool. split; [reflexivity|]. split; [reflexivity|].
  split; [reflexivity|]. split.
  - intros t w Hlo Htab N.
    assert (L : truthy (leave_open t) = false)
      by (destruct Hlo as [-> | ->]; reflexivity).
    destruct (close_effect t w N) as (_ & _ & H3 & _).
    rewrite H3. unfold removal_calls. rewrite Htab, L. cbn [andb negb].
    split.
    + destruct (truthy (listener t)); count_log.
    + apply in_or_app. right. apply in_or_app. right. left. reflexivity.
  - intros t w Hlo. cbn in Hlo.
    destruct (state t) eqn:E;
      try (rewrite close_when_CLOSED by exact E; reflexivity);
      assert (N : state t <> CLOSED) by (rewrite E; discriminate);
      destruct (close_effect t w N) as (_ & _ & H3 & _);
      rewrite H3; unfold removal_calls; rewrite Hlo;
      destruct (truthy (listener t)), (truthy (tab t)); count_log.
Qed.

(** The two methods with [no_faults] are the methods above. *)
Lemma under_no_faults (target : string) (f c : option Function)
      (t : Browser_Tab) (w : World) :
  go (load_under no_faults target) f c t w = go (load target) f c t w
  /\ close_under no_faults t w = close t w.
Proof.
  split; reflexivity.
Qed.

(** Unfolds the methods that take [Faults]. *)
Ltac js_unfold_under :=
  unfold go, load_under, _show_under, close_under, call_finally_f_under,
    call_catch_f_under, reportError_under, call_or_throw,
    removeTabsProgressListener_under, removeTab_under;
  js_unfold.

(** A start whose setup throws [e], with both callbacks given: what the
    [catch] block does, by what its three calls do. *)
Lemma go_under_when_setup_throws (fx : Faults) (target : string)
      (f c : Function) (t : Browser_Tab) (w : World) (e : Exn) :
  setup_throws w target e ->
  let r := go (load_under fx target) (Some f) (Some c) t w in
  state (this r) = ERROR
  /\ exists calls,
       forallb is_setup_call calls = true
       /\ (forall x, reportError_throws fx (show_message e) = Some x ->
            completion r = Throw x
            /\ log (world r)
               = log w ++ calls ++ [Call_reportError (show_message e)])
       /\ (reportError_throws fx (show_message e) = None ->
            (forall x, catch_f_throws fx c e = Some x ->
               completion r = Throw x
               /\ log (world r)
                  = log w ++ calls
                    ++ [Call_reportError (show_message e); Call_catch_f c e])
            /\ (catch_f_throws fx c e = None ->
                log (world r)
                = log w ++ calls
                  ++ [Call_reportError (show_message e); Call_catch_f c e;
                      Call_finally_f f false]
                /\ completion r
                   = match finally_f_throws fx f false with
                     | Some x => Throw x
                     | None => Normal tt
                     end)).
Proof.
  intros H.
  destruct H as [H1 | H1 H2 | H1 H2 H3]; unfold fresh_listener, fresh_tab in *;
    js_unfold_under; cbn; rewrite H1; cbn; rewrite ?H2; cbn; rewrite ?H3; cbn;
    (split;
     [ destruct (reportError_throws fx (show_message e)); cbn;
       [reflexivity|];
       destruct (catch_f_throws fx c e); cbn; [reflexivity|];
       destruct (finally_f_throws fx f false); reflexivity
     | ]).
  - exists [Call_addTabsProgressListener (jobj (next_obj w))].
    split; [reflexivity|].
    destruct (reportError_throws fx (show_message e)) as [x0|]; cbn.
    + split; [|discriminate]. intros x [= <-].
      rewrite <- ?app_assoc. auto.
    + split; [discriminate|]. intros _.
      destruct (catch_f_throws fx c e) as [x1|]; cbn.
      * split; [|discriminate]. intros x [= <-].
        rewrite <- ?app_assoc. auto.
      * split; [discriminate|]. intros _.
        destruct (finally_f_throws fx f false); cbn;
          rewrite <- ?app_assoc; auto.
  - exists [Call_addTabsProgressListener (jobj (next_obj w));
            Call_addTab target].
    split; [reflexivity|].
    destruct (reportError_throws fx (show_message e)) as [x0|]; cbn.
    + split; [|discriminate]. intros x [= <-].
      rewrite <- ?app_assoc. auto.
    + split; [discriminate|]. intros _.
      destruct (catch_f_throws fx c e) as [x1|]; cbn.
      * split; [|discriminate]. intros x [= <-].
        rewrite <- ?app_assoc. auto.
      * split; [discriminate|]. intros _.
        destruct (finally_f_throws fx f false); cbn;
          rewrite <- ?app_assoc; auto.
  - exists [Call_addTabsProgressListener (jobj (next_obj w));
            Call_addTab target;
            Call_getBrowserForTab (jobj (S (next_obj w)))].
    split; [reflexivity|].
    destruct (reportError_throws fx (show_message e)) as [x0|]; cbn.
    + split; [|discriminate]. intros x [= <-].
      rewrite <- ?app_assoc. auto.
    + split; [discriminate|]. intros _.
      destruct (catch_f_throws fx c e) as [x1|]; cbn.
      * split; [|discriminate]. intros x [= <-].
        rewrite <- ?app_assoc. auto.
      * split; [discriminate|]. intros _.
        destruct (finally_f_throws fx f false); cbn;
          rewrite <- ?app_assoc; auto.
Qed.

Lemma setup_calls_are_no_reports (calls : list Event) :
  forallb is_setup_call calls = true ->
  count is_reportError_call calls = 0%nat
  /\ count is_callback_call calls = 0%nat
  /\ count is_finally_call calls = 0%nat
  /\ count is_catch_call calls = 0%nat.
Proof.
  induction calls as [|ev rest IH]; intros Hc; [auto|].
  cbn in Hc. apply andb_true_iff in Hc as [Hev Hrest].
  destruct (IH Hrest) as (I1 & I2 & I3 & I4). unfold count in *.
  destruct ev; try discriminate; cbn; auto.
Qed.

(** C4, as the spec states it, fails: nothing in [_show] catches what a
    callback throws.  [addTab] throws and the failure callback throws in its
    turn: [go] throws what the callback threw, and [finally_f] is not
    called. *)
Lemma throwing_catch_f_leaves_go :
  let r := go (load_under Scenario.catch_f_fails Scenario.target)
              (Some Scenario.onComplete) (Some Scenario.onFailure)
              (make_tab Scenario.pool []) Scenario.addTab_fails in
  completion r = Throw Scenario.boom
  /\ completion r <> Normal tt
  /\ log (world r)
     = [Call_addTabsProgressListener (jobj 0);
        Call_addTab Scenario.target;
        Call_reportError
          "Unexpected exception in Browser_Tab.show(): NS_ERROR_MALFORMED_URI";
        Call_catch_f Scenario.onFailure Scenario.malformed]
  /\ count is_finally_call (log (world r)) = 0%nat.
Proof.
  cbv zeta. split; [reflexivity|]. split; [discriminate|].
  split; reflexivity.
Qed.

(** C4, amended: a throw of the host inside the setup is caught, and then
    the callbacks decide.  When one of the three setup calls throws [e]
    during [load( target ).go( f, c )] and [Cu.reportError] returns, the
    state is ERROR and after the setup calls made so far the log holds one
    [Cu.reportError] with the message
    ["Unexpected exception in Browser_Tab.show(): " + e.toString()], then
    [c( e )]; if [c] returns, then [f( false )]; and if [f] returns too,
    [go] returns normally.  What [c] or [f] throws leaves [go], and when
    [c] throws, [f] is not called. *)
Theorem setup_failure_is_absorbed :
  forall (fx : Faults) (target : string) (f c : Function) (t : Browser_Tab)
         (w : World) (e : Exn),
    setup_throws w target e ->
    reportError_throws
      fx ("Unexpected exception in Browser_Tab.show(): " ++ toString e)%string = None ->
    let r := go (load_under fx target) (Some f) (Some c) t w in
    state (this r) = ERROR
    /\ exists calls,
         forallb is_setup_call calls = true
         /\ (catch_f_throws fx c e = None ->
              finally_f_throws fx f false = None ->
              completion r = Normal tt
              /\ log (world r)
                 = log w ++ calls
                   ++ [Call_reportError
                         ("Unexpected exception in Browser_Tab.show(): " ++ toString e)%string;
                       Call_catch_f c e;
                       Call_finally_f f false]
              /\ count is_reportError_call (log (world r))
                 = S (count is_reportError_call (log w))
              /\ count is_callback_call (log (world r))
                 = S (S (count is_callback_call (log w))))
         /\ (forall x,
                catch_f_throws fx c e = Some x ->
                completion r = Throw x
                /\ log (world r)
                   = log w ++ calls
                     ++ [Call_reportError
                           ("Unexpected exception in Browser_Tab.show(): " ++ toString e)%string;
                         Call_catch_f c e]
                /\ count is_finally_call (log (world r))
                   = count is_finally_call (log w))
         /\ (forall x,
                catch_f_throws fx c e = None ->
                finally_f_throws fx f false = Some x ->
                completion r = Throw x
                /\ log (world r)
                   = log w ++ calls
                     ++ [Call_reportError
                           ("Unexpected exception in Browser_Tab.show(): " ++ toString e)%string;
                         Call_catch_f c e;
                         Call_finally_f f false]).
Proof.
  intros fx target f c t w e H HR r.
  destruct (go_under_when_setup_throws fx target f c t w e H)
    as (S1 & calls & Hc & _ & G).
  fold r in S1, G. destruct (G HR) as [Gx Gn]. clear G.
  destruct (setup_calls_are_no_reports calls Hc) as (Z1 & Z2 & Z3 & _).
  split; [exact S1|]. exists calls. split; [exact Hc|].
  split; [|split].
  - intros C F. destruct (Gn C) as [L K]. rewrite F in K.
    split; [exact K|]. split; [exact L|].
    unfold show_message in L. rewrite L, !count_app, Z1, Z2.
    unfold count. cbn. lia.
  - intros x C. destruct (Gx x C) as [K L].
    split; [exact K|]. split; [exact L|].
    unfold show_message in L. rewrite L, !count_app, Z3.
    unfold count. cbn. lia.
  - intros x C F. destruct (Gn C) as [L K]. rewrite F in K.
    split; [exact K | exact L].
Qed.

(** C5: after a start whose setup returned, the tab holds the new tab and
    the pane that the host resolved for it, and a stop notification for
    that pane with stop status 0 puts the tab in state DISPLAYED and calls
    [finally_f( true )], once: the start itself called it not at all, and
    the notification adds exactly this call to the log. *)
Theorem stop_with_success_displays :
  forall (STATE_STOP : Z) (target : string) (f : Function)
         (c : option Function) (t : Browser_Tab) (w : World)
         (controller browse_request : jsval) (flags : Z),
    in_final_state t = false ->
    setup_returns w target ->
    is_stop STATE_STOP flags = true ->
    let r := go (load target) (Some f) c t w in
    let pane := linkedBrowser w (fresh_tab w) in
    let r2 := _progress STATE_STOP pane controller browse_request
                        flags 0 (this r) (world r) in
    completion r = Normal tt
    /\ tab (this r) = fresh_tab w
    /\ browser (this r) = pane
    /\ state (this r) = state t
    /\ log (world r)
       = log w ++ [Call_addTabsProgressListener (fresh_listener w);
                   Call_addTab target;
                   Call_getBrowserForTab (fresh_tab w)]
    /\ state (this r2) = DISPLAYED
    /\ error_code (this r2) = error_code t
    /\ log (world r2) = log (world r) ++ [Call_finally_f f true]
    /\ count is_finally_call (log (world r2))
       = S (count is_finally_call (log w)).
Proof.
  intros STATE_STOP target f c t w cr rq flags F Hret Hstop r pane r2.
  destruct (go_when_setup_returns target (Some f) c t w Hret)
    as (H1 & H2 & H3 & _).
  fold r in H1, H2, H3.
  assert (E : r2 = mkOutcome (Normal tt) (set_state DISPLAYED (this r))
                             (record (Call_finally_f f true) (world r))).
  { subst r2. rewrite _progress_eq. unfold in_final_state in *.
    rewrite H2. cbn [state finally_f browser]. fold pane.
    rewrite F, strict_eq_refl, Hstop. reflexivity. }
  rewrite E. cbn [completion this world].
  split; [exact H1|]. rewrite H2 at 1 2 3. cbn [tab browser state].
  split; [reflexivity|]. split; [reflexivity|]. split; [reflexivity|].
  split; [exact H3|]. split; [reflexivity|].
  split; [rewrite H2; reflexivity|]. split; [reflexivity|].
  cbn [record log]. rewrite H3. count_log.
Qed.

(** C6: after a start whose setup returned, a stop notification for the
    pane that the host resolved for the new tab, with a stop status other
    than 0, puts the tab in state ERROR, stores the status in [error_code]
    and calls [finally_f( false )], once. *)
Theorem stop_with_failure_errors :
  forall (STATE_STOP : Z) (target : string) (f : Function)
         (c : option Function) (t : Browser_Tab) (w : World)
         (controller browse_request : jsval) (flags stop_status : Z),
    in_final_state t = false ->
    setup_returns w target ->
    is_stop STATE_STOP flags = true ->
    stop_status <> 0%Z ->
    let r := go (load target) (Some f) c t w in
    let pane := linkedBrowser w (fresh_tab w) in
    let r2 := _progress STATE_STOP pane controller browse_request
                        flags stop_status (this r) (world r) in
    completion r = Normal tt
    /\ tab (this r) = fresh_tab w
    /\ browser (this r) = pane
    /\ state (this r) = state t
    /\ state (this r2) = ERROR
    /\ error_code (this r2) = Some stop_status
    /\ log (world r2) = log (world r) ++ [Call_finally_f f false]
    /\ count is_finally_call (log (world r2))
       = S (count is_finally_call (log w)).
Proof.
  intros STATE_STOP target f c t w cr rq flags st F Hret Hstop Hst r pane r2.
  destruct (go_when_setup_returns target (Some f) c t w Hret)
    as (H1 & H2 & H3 & _).
  fold r in H1, H2, H3.
  apply Z.eqb_neq in Hst.
  assert (E : r2 = mkOutcome (Normal tt)
                             (set_error_code st (set_state ERROR (this r)))
                             (record (Call_finally_f f false) (world r))).
  { subst r2. rewrite _progress_eq. unfold in_final_state in *.
    rewrite H2. cbn [state finally_f browser]. fold pane.
    rewrite F, strict_eq_refl, Hstop, Hst. reflexivity. }
  rewrite E. cbn [completion this world].
  split; [exact H1|]. rewrite H2 at 1 2 3. cbn [tab browser state].
  split; [reflexivity|]. split; [reflexivity|]. split; [reflexivity|].
  split; [reflexivity|]. split; [reflexivity|]. split; [reflexivity|].
  cbn [record log]. rewrite H3. count_log.
Qed.

(** C7: a notification for another pane, or one whose flags have no bit of
    [STATE_STOP], changes nothing: the handler returns with the object, all
    its fields, and the host, log included, as they were. *)
Theorem foreign_or_non_stop_is_ignored :
  forall (STATE_STOP : Z) (b controller browse_request : jsval)
         (flags stop_status : Z) (t : Browser_Tab) (w : World),
    browser t <> b \/ is_stop STATE_STOP flags = false ->
    _progress STATE_STOP b controller browse_request flags stop_status t w
    = mkOutcome (Normal tt) t w.
Proof.
  intros STATE_STOP b cr rq flags st t w H. rewrite _progress_eq.
  destruct H as [H | H].
  - rewrite (strict_eq_neq _ _ H). cbn [negb].
    rewrite orb_true_r. reflexivity.
  - rewrite H. cbn [negb]. rewrite orb_true_r. reflexivity.
Qed.

(** C8, as the spec states it, fails: in state CLOSED [close] releases
    nothing, whatever the tab holds.  A tab is closed and then started; the
    setup returns, so the tab holds a listener that is registered and a tab
    that is open, and is still CLOSED.  [close] returns at its first test:
    the listener stays registered and both fields stay as they are. *)
Lemma close_leaves_a_CLOSED_tab_its_listener :
  let r0 := close (make_tab Scenario.pool [jbool false]) Scenario.calm in
  let r := go (load Scenario.target) (Some Scenario.onComplete)
              (Some Scenario.onFailure) (this r0) (world r0) in
  let r2 := close (this r) (world r) in
  state (this r) = CLOSED
  /\ listener (this r) = jobj 0
  /\ tab (this r) = jobj 1
  /\ leave_open (this r) = jbool false
  /\ In (jobj 0) (progress_listeners (world r))
  /\ listener (this r2) = jobj 0
  /\ tab (this r2) = jobj 1
  /\ In (jobj 0) (progress_listeners (world r2))
  /\ In (jobj 1) (open_tabs (world r2))
  /\ count is_removeListener_call (log (world r2)) = 0%nat
  /\ count is_removeTab_call (log (world r2)) = 0%nat.
Proof.
  cbv zeta. repeat split; try reflexivity; left; reflexivity.
Qed.

(** A removal call that throws leaves [close], and the state is not set. *)
Example close_under_removeTab_throws :
  let r := Scenario.started [jbool false] Scenario.calm in
  let r2 := close_under Scenario.removeTab_fails (this r) (world r) in
  completion r2 = Throw Scenario.boom
  /\ state (this r2) = CREATED
  /\ listener (this r2) = null
  /\ tab (this r2) = jobj 1.
Proof.
  cbv zeta. repeat split; reflexivity.
Qed.

(** C8, amended: [close] is idempotent, and releases on its first call.  In
    state CLOSED it returns normally and leaves the object and the host as
    they are, whatever the object holds and whatever the host's calls would
    do.  In any other state, if the removal calls it makes return, it
    returns normally and leaves the state CLOSED; its host calls are
    [removeTabsProgressListener] when there is a listener and [removeTab]
    when there is a tab and [leave_open] is false, and no others; both
    fields are cleared; and any further [close] returns normally and
    changes nothing: no second removal of the listener or of the tab. *)
Theorem close_is_idempotent :
  forall (fx : Faults) (t : Browser_Tab) (w : World),
    let r := close_under fx t w in
    (state t = CLOSED -> r = mkOutcome (Normal tt) t w)
    /\ (state t <> CLOSED ->
        (truthy (listener t) = true ->
         removeTabsProgressListener_throws fx (listener t) = None) ->
        (truthy (tab t) = true -> truthy (leave_open t) = false ->
         removeTab_throws fx (tab t) = None) ->
        completion r = Normal tt
        /\ state (this r) = CLOSED
        /\ log (world r) = log w ++ removal_calls t
        /\ truthy (listener (this r)) = false
        /\ truthy (tab (this r)) = false
        /\ (truthy (listener t) = true ->
            listener (this r) = null
            /\ ~ In (listener t) (progress_listeners (world r)))
        /\ (truthy (tab t) = true ->
            tab (this r) = null
            /\ (truthy (leave_open t) = false ->
                ~ In (tab t) (open_tabs (world r))))
        /\ (forall (fx2 : Faults) (w2 : World),
               close_under fx2 (this r) w2
               = mkOutcome (Normal tt) (this r) w2)).
Proof.
  intros fx t w r. split.
  - intros C. subst r. js_unfold_under. cbn. rewrite C. reflexivity.
  - intros N HL HT.
    assert (E : r = close t w).
    { subst r. destruct t as [lo tb l b f c s ec]. cbn in *.
      js_unfold_under. cbn.
      destruct s; try contradiction; cbn;
        (destruct (truthy l) eqn:EL; cbn;
         [rewrite (HL eq_refl); cbn|]);
        (destruct (truthy tb) eqn:ET; cbn;
         [destruct (truthy lo) eqn:EO; cbn;
          [|rewrite (HT eq_refl eq_refl); cbn]|]);
        reflexivity. }
    rewrite E.
    destruct (close_effect t w N) as (H1 & H2 & H3 & H4 & H5).
    split; [exact H1|]. rewrite H2, H4, H5. cbn [state listener tab].
    split; [reflexivity|]. split; [exact H3|].
    split; [destruct (truthy (listener t)) eqn:X; [reflexivity | exact X]|].
    split; [destruct (truthy (tab t)) eqn:X; [reflexivity | exact X]|].
    split; [|split].
    + intros L. rewrite L. split; [reflexivity | apply not_In_without].
    + intros T. rewrite T. split; [reflexivity|].
      intros L. rewrite L. cbn [andb negb]. apply not_In_without.
    + intros fx2 w2. js_unfold_under. cbn. reflexivity.
Qed.

(** C9: [available()] answers true exactly when
    [n_requests < max_requests], so false when the two are equal, and leaves
    the pool as it is.  This holds for every pool, those with
    [0 <= n_requests <= max_requests] among them. *)
Theorem available_iff_below_max :
  forall (p : Tabbed_Browser.t),
    (fst (Tabbed_Browser.available p) = true
     <-> (Tabbed_Browser.n_requests p < Tabbed_Browser.max_requests p)%Z)
    /\ (Tabbed_Browser.n_requests p = Tabbed_Browser.max_requests p ->
        fst (Tabbed_Browser.available p) = false)
    /\ snd (Tabbed_Browser.available p) = p.
Proof.
  intros p. unfold Tabbed_Browser.available. cbn [fst snd].
  split; [apply Z.ltb_lt|]. split; [|reflexivity].
  intros E. rewrite E. apply Z.ltb_irrefl.
Qed.

(** The listener that [_show] makes is registered as soon as
    [addTabsProgressListener] returns, whatever the later calls do. *)
Lemma go_registers_listener (target : string) (f c : option Function)
      (t : Browser_Tab) (w : World) :
  addTabsProgressListener_throws w (fresh_listener w) = None ->
  let r := go (load target) f c t w in
  listener (this r) = fresh_listener w
  /\ progress_listeners (world r) = progress_listeners w ++ [fresh_listener w].
Proof.
  unfold fresh_listener. intros H1. js_unfold. cbn. rewrite H1. cbn.
  destruct (addTab_throws w target); cbn;
    [|destruct (getBrowserForTab_throws w (jobj (S (next_obj w)))); cbn];
    destruct c, f; cbn; split; reflexivity.
Qed.

(** The handler never touches the host's listeners or tabs. *)
Lemma _progress_keeps_registrations (STATE_STOP : Z) (b c r : jsval)
      (flags stop_status : Z) (t : Browser_Tab) (w : World) :
  let o := _progress STATE_STOP b c r flags stop_status t w in
  progress_listeners (world o) = progress_listeners w
  /\ open_tabs (world o) = open_tabs w
  /\ listener (this o) = listener t
  /\ tab (this o) = tab t.
Proof.
  cbv zeta. rewrite _progress_eq.
  destruct (in_final_state t || negb (strict_eq (browser t) b)
            || negb (is_stop STATE_STOP flags)); cbn; [auto|].
  destruct (finally_f t), (stop_status =? 0)%Z; cbn; auto.
Qed.

(** C10: a setup that throws after the listener was registered releases
    nothing.  When [addTabsProgressListener] returned and a later setup call
    threw, then after [go] the field [listener] still holds the listener,
    the listener is still registered with the host, every tab that was open
    is still open, and no removal call was made.  Notifications do not
    change this.  A following [close] calls [removeTabsProgressListener] on
    the listener, after which it is registered no more and the field is
    null. *)
Theorem setup_failure_releases_nothing :
  forall (STATE_STOP : Z) (target : string) (f c : option Function)
         (t : Browser_Tab) (w : World) (e : Exn),
    addTabsProgressListener_throws w (fresh_listener w) = None ->
    setup_throws w target e ->
    let r := go (load target) f c t w in
    let l := fresh_listener w in
    state (this r) = ERROR
    /\ listener (this r) = l
    /\ truthy l = true
    /\ In l (progress_listeners (world r))
    /\ incl (open_tabs w) (open_tabs (world r))
    /\ count is_removeListener_call (log (world r))
       = count is_removeListener_call (log w)
    /\ count is_removeTab_call (log (world r))
       = count is_removeTab_call (log w)
    /\ (forall (b cr rq : jsval) (flags st : Z),
           let o := _progress STATE_STOP b cr rq flags st (this r) (world r) in
           listener (this o) = l /\ In l (progress_listeners (world o)))
    /\ (let r2 := close (this r) (world r) in
        listener (this r2) = null
        /\ ~ In l (progress_listeners (world r2))
        /\ In (Call_removeTabsProgressListener l) (log (world r2))).
Proof.
  intros STATE_STOP target f c t w e Hadd Hthrow r l.
  destruct (go_when_setup_throws target f c t w e Hthrow)
    as (_ & Hst & _). fold r in Hst.
  destruct (go_registers_listener target f c t w Hadd) as [Hl Hreg].
  fold r l in Hl, Hreg.
  destruct (go_never_removes target f c t w) as (_ & Htabs & Hrl & Hrt).
  fold r in Htabs, Hrl, Hrt.
  assert (Hin : In l (progress_listeners (world r))).
  { rewrite Hreg. apply in_or_app. right. left. reflexivity. }
  split; [exact Hst|]. split; [exact Hl|]. split; [reflexivity|].
  split; [exact Hin|]. split; [exact Htabs|]. split; [exact Hrl|].
  split; [exact Hrt|]. split.
  - intros b cr rq flags st o.
    destruct (_progress_keeps_registrations STATE_STOP b cr rq flags st
                                            (this r) (world r))
      as (P1 & _ & P3 & _).
    fold o in P1, P3. rewrite P1, P3. split; [exact Hl | exact Hin].
  - assert (N : state (this r) <> CLOSED) by (rewrite Hst; discriminate).
    destruct (close_effect (this r) (world r) N) as (_ & C2 & C3 & C4 & _).
    cbv zeta. rewrite C2, C3, C4. unfold removal_calls. rewrite Hl.
    cbn [listener truthy l fresh_listener].
    split; [reflexivity|]. split; [apply not_In_without|].
    apply in_or_app. right. apply in_or_app. left. left. reflexivity.
Qed.

(* ------------------------------------------------------------------ *)
(** ** The stop flag of Firefox *)
(* ------------------------------------------------------------------ *)

Lemma to_int32_low_bits (z : Z) (n : Z) :
  (0 <= n < 32)%Z -> Z.testbit (to_int32 z) n = Z.testbit z n.
Proof.
  intros Hn. unfold to_int32.
  rewrite <- (Z.mod_pow2_bits_low _ 32 n) by lia.
  rewrite <- (Z.mod_pow2_bits_low z 32 n) by lia.
  f_equal. change (2 ^ 32)%Z with 4294967296%Z.
  rewrite Zminus_mod, Zmod_mod, <- Zminus_mod.
  f_equal. lia.
Qed.

(** With [STATE_STOP = 0x10] a notification is a stop event exactly when bit
    4 of its flags is set. *)
Lemma is_stop_bit (flags : Z) :
  is_stop Scenario.STATE_STOP flags = Z.testbit flags 4.
Proof.
  unfold is_stop, bit_and, Scenario.STATE_STOP.
  change (to_int32 16) with (2 ^ 4)%Z.
  rewrite <- (to_int32_low_bits flags 4) by lia.
  destruct (Z.testbit (to_int32 flags) 4) eqn:B.
  - apply negb_true_iff, Z.eqb_neq. intros E.
    assert (T : Z.testbit (Z.land (to_int32 flags) (2 ^ 4)) 4 = true)
      by (rewrite Z.land_spec, B, Z.pow2_bits_true by lia; reflexivity).
    rewrite E in T. discriminate.
  - apply negb_false_iff, Z.eqb_eq. apply Z.bits_inj'. intros n Hn.
    rewrite Z.land_spec, Z.bits_0, Z.pow2_bits_eqb by lia.
    destruct (Z.eqb_spec 4 n) as [<- | _].
    + rewrite B. reflexivity.
    + apply andb_false_r.
Qed.

(* ------------------------------------------------------------------ *)
(** ** Runs on the scenario host *)
(* ------------------------------------------------------------------ *)

Module Runs.
Import Scenario.

(** create, start, stop with success: DISPLAYED, one call of the
    completion callback *)
Example run_success :
  let r := started [] calm in
  let r2 := _progress STATE_STOP (jobj 1001) null null STATE_STOP 0
                      (this r) (world r) in
  state (this r2) = DISPLAYED
  /\ log (world r2)
     = [Call_addTabsProgressListener (jobj 0); Call_addTab target;
        Call_getBrowserForTab (jobj 1); Call_finally_f onComplete true].
Proof. split; reflexivity. Qed.

(** the same with a failure status *)
Example run_failure :
  let r := started [] calm in
  let r2 := _progress STATE_STOP (jobj 1001) null null STATE_STOP failure_code
                      (this r) (world r) in
  state (this r2) = ERROR
  /\ error_code (this r2) = Some 2152398850%Z
  /\ log (world r2)
     = [Call_addTabsProgressListener (jobj 0); Call_addTab target;
        Call_getBrowserForTab (jobj 1); Call_finally_f onComplete false].
Proof. repeat split; reflexivity. Qed.

(** two stop events for the same pane: one call *)
Example run_two_stops :
  let r := started [] calm in
  let stop := onStateChange (jobj 1001) null null STATE_STOP 0 in
  let e := deliver_all STATE_STOP [stop; stop] (this r) (world r) in
  state (fst e) = DISPLAYED
  /\ count is_finally_call (log (snd e)) = 1%nat.
Proof. split; reflexivity. Qed.

(** create, start, close, stop with success: no callback *)
Example run_close_then_stop :
  let r := started [jbool true] calm in
  let stop := onStateChange (jobj 1001) null null STATE_STOP 0 in
  let e := deliver_all STATE_STOP [close_call; stop] (this r) (world r) in
  state (fst e) = CLOSED
  /\ log (snd e)
     = [Call_addTabsProgressListener (jobj 0); Call_addTab target;
        Call_getBrowserForTab (jobj 1);
        Call_removeTabsProgressListener (jobj 0)].
Proof. split; reflexivity. Qed.

(** [addTab] throws during the start *)
Example run_addTab_throws :
  let r := started [] addTab_fails in
  completion r = Normal tt
  /\ state (this r) = ERROR
  /\ listener (this r) = jobj 0
  /\ progress_listeners (world r) = [jobj 0]
  /\ log (world r)
     = [Call_addTabsProgressListener (jobj 0); Call_addTab target;
        Call_reportError (show_message malformed);
        Call_catch_f onFailure malformed; Call_finally_f onComplete false].
Proof. repeat split; reflexivity. Qed.

(** close, then a second start, then close: the second close returns at
    its first test and removes neither the new listener nor the new tab *)
Example run_close_start_close :
  let r0 := close (make_tab pool [jbool false]) calm in
  let r := go (load target) (Some onComplete) (Some onFailure)
              (this r0) (world r0) in
  let r2 := close (this r) (world r) in
  state (this r) = CLOSED
  /\ tab (this r2) = jobj 1
  /\ progress_listeners (world r2) = [jobj 0]
  /\ count is_removeTab_call (log (world r2)) = 0%nat.
Proof. repeat split; reflexivity. Qed.

End Runs.

Lemma finally_f_at_most_once_witness :
  let r := Scenario.started [] Scenario.calm in
  let stop := onStateChange (jobj 1001) null null 16 0 in
  let e := deliver_all Scenario.STATE_STOP [stop; close_call; stop]
                       (this r) (world r) in
  (count is_finally_call (log (snd e)) <= 0 + 1)%nat
  /\ in_final_state (fst e) = true
  /\ _progress Scenario.STATE_STOP (jobj 1001) null null 16 0 (fst e) (snd e)
     = mkOutcome (Normal tt) (fst e) (snd e).
Proof.
  cbv zeta. split; [|split].
  - exact (proj1 (finally_f_at_most_once Scenario.STATE_STOP)
                 Scenario.target (Some Scenario.onComplete)
                 (Some Scenario.onFailure) (make_tab Scenario.pool [])
                 Scenario.calm
                 [onStateChange (jobj 1001) null null 16 0; close_call;
                  onStateChange (jobj 1001) null null 16 0]).
  - reflexivity.
  - apply (proj2 (proj2 (finally_f_at_most_once Scenario.STATE_STOP))).
    reflexivity.
Defined.

Lemma leave_open_decides_removeTab_witness :
  let r := Scenario.started [jbool false] Scenario.calm in
  (leave_open (this r) = leave_open (make_tab Scenario.pool [])
   \/ leave_open (this r) = leave_open (make_tab Scenario.pool [jbool false]))
  /\ truthy (tab (this r)) = true
  /\ state (this r) <> CLOSED
  /\ count is_removeTab_call (log (world (close (this r) (world r))))
     = S (count is_removeTab_call (log (world r)))
  /\ In (Call_removeTab (tab (this r)))
        (log (world (close (this r) (world r)))).
Proof.
  cbv zeta.
  assert (H1 : leave_open (this (Scenario.started [jbool false] Scenario.calm))
               = leave_open (make_tab Scenario.pool [])
               \/ leave_open (this (Scenario.started [jbool false] Scenario.calm))
                  = leave_open (make_tab Scenario.pool [jbool false]))
    by (right; reflexivity).
  assert (H2 : truthy (tab (this (Scenario.started [jbool false] Scenario.calm)))
               = true) by reflexivity.
  assert (H3 : state (this (Scenario.started [jbool false] Scenario.calm))
               <> CLOSED) by discriminate.
  split; [exact H1|]. split; [exact H2|]. split; [exact H3|].
  exact (proj1 (proj2 (proj2 (proj2
           (leave_open_decides_removeTab Scenario.pool))))
           _ _ H1 H2 H3).
Defined.

Lemma setup_failure_is_absorbed_witness :
  setup_throws Scenario.addTab_fails Scenario.target Scenario.malformed
  /\ (let r := go (load_under no_faults Scenario.target)
                  (Some Scenario.onComplete) (Some Scenario.onFailure)
                  (make_tab Scenario.pool []) Scenario.addTab_fails in
      state (this r) = ERROR
      /\ completion r = Normal tt
      /\ log (world r)
         = [Call_addTabsProgressListener (jobj 0);
            Call_addTab Scenario.target;
            Call_reportError
              "Unexpected exception in Browser_Tab.show(): NS_ERROR_MALFORMED_URI";
            Call_catch_f Scenario.onFailure Scenario.malformed;
            Call_finally_f Scenario.onComplete false]).
Proof.
  assert (H : setup_throws Scenario.addTab_fails Scenario.target
                           Scenario.malformed)
    by (apply throws_in_addTab; reflexivity).
  split; [exact H|].
  destruct (setup_failure_is_absorbed no_faults Scenario.target
              Scenario.onComplete Scenario.onFailure
              (make_tab Scenario.pool []) Scenario.addTab_fails
              Scenario.malformed H eq_refl) as (H1 & calls & _ & H2 & _).
  destruct (H2 eq_refl eq_refl) as (H3 & _).
  split; [exact H1|]. split; [exact H3|]. reflexivity.
Defined.

Lemma stop_with_success_displays_witness :
  in_final_state (make_tab Scenario.pool []) = false
  /\ setup_returns Scenario.calm Scenario.target
  /\ is_stop Scenario.STATE_STOP 16 = true
  /\ (let r := Scenario.started [] Scenario.calm in
      let r2 := _progress Scenario.STATE_STOP (jobj 1001) null null
                          16 0 (this r) (world r) in
      browser (this r) = jobj 1001
      /\ state (this r2) = DISPLAYED
      /\ log (world r2)
         = log (world r) ++ [Call_finally_f Scenario.onComplete true]).
Proof.
  assert (H1 : in_final_state (make_tab Scenario.pool []) = false)
    by reflexivity.
  assert (H2 : setup_returns Scenario.calm Scenario.target)
    by (constructor; reflexivity).
  assert (H3 : is_stop Scenario.STATE_STOP 16 = true) by reflexivity.
  split; [exact H1|]. split; [exact H2|]. split; [exact H3|].
  destruct (stop_with_success_displays Scenario.STATE_STOP Scenario.target
              Scenario.onComplete (Some Scenario.onFailure)
              (make_tab Scenario.pool []) Scenario.calm null null 16
              H1 H2 H3) as (_ & _ & R0 & _ & _ & R1 & _ & R2 & _).
  split; [exact R0|]. split; [exact R1 | exact R2].
Defined.

Lemma stop_with_failure_errors_witness :
  in_final_state (make_tab Scenario.pool []) = false
  /\ setup_returns Scenario.calm Scenario.target
  /\ is_stop Scenario.STATE_STOP 16 = true
  /\ Scenario.failure_code <> 0%Z
  /\ (let r := Scenario.started [] Scenario.calm in
      let r2 := _progress Scenario.STATE_STOP (jobj 1001) null null
                          16 Scenario.failure_code (this r) (world r) in
      browser (this r) = jobj 1001
      /\ state (this r2) = ERROR
      /\ error_code (this r2) = Some Scenario.failure_code
      /\ log (world r2)
         = log (world r) ++ [Call_finally_f Scenario.onComplete false]).
Proof.
  assert (H1 : in_final_state (make_tab Scenario.pool []) = false)
    by reflexivity.
  assert (H2 : setup_returns Scenario.calm Scenario.target)
    by (constructor; reflexivity).
  assert (H3 : is_stop Scenario.STATE_STOP 16 = true) by reflexivity.
  assert (H4 : Scenario.failure_code <> 0%Z) by discriminate.
  split; [exact H1|]. split; [exact H2|]. split; [exact H3|].
  split; [exact H4|].
  destruct (stop_with_failure_errors Scenario.STATE_STOP Scenario.target
              Scenario.onComplete (Some Scenario.onFailure)
              (make_tab Scenario.pool []) Scenario.calm null null 16
              Scenario.failure_code H1 H2 H3 H4)
    as (_ & _ & R0 & _ & R1 & R2 & R3 & _).
  split; [exact R0|]. split; [exact R1|]. split; [exact R2 | exact R3].
Defined.

Lemma foreign_or_non_stop_is_ignored_witness :
  let r := Scenario.started [] Scenario.calm in
  (browser (this r) <> jobj 2001
   \/ is_stop Scenario.STATE_STOP 16 = false)
  /\ _progress Scenario.STATE_STOP (jobj 2001) null null 16
               Scenario.failure_code (this r) (world r)
     = mkOutcome (Normal tt) (this r) (world r).
Proof.
  cbv zeta.
  assert (H : browser (this (Scenario.started [] Scenario.calm)) <> jobj 2001
              \/ is_stop Scenario.STATE_STOP 16 = false)
    by (left; discriminate).
  split; [exact H|].
  exact (foreign_or_non_stop_is_ignored Scenario.STATE_STOP (jobj 2001) null
           null 16 Scenario.failure_code _ _ H).
Defined.

Lemma close_is_idempotent_witness :
  let r0 := Scenario.started [jbool false] Scenario.calm in
  let r := close_under no_faults (this r0) (world r0) in
  state (this r0) <> CLOSED
  /\ truthy (listener (this r0)) = true
  /\ truthy (tab (this r0)) = true
  /\ completion r = Normal tt
  /\ state (this r) = CLOSED
  /\ log (world r) = log (world r0) ++ removal_calls (this r0)
  /\ listener (this r) = null
  /\ tab (this r) = null
  /\ close_under Scenario.removeTab_fails (this r) (world r)
     = mkOutcome (Normal tt) (this r) (world r).
Proof.
  cbv zeta.
  assert (N : state (this (Scenario.started [jbool false] Scenario.calm))
              <> CLOSED) by discriminate.
  assert (L : truthy (listener (this (Scenario.started [jbool false]
                                                       Scenario.calm)))
              = true) by reflexivity.
  assert (T : truthy (tab (this (Scenario.started [jbool false]
                                                  Scenario.calm)))
              = true) by reflexivity.
  destruct (proj2 (close_is_idempotent no_faults
              (this (Scenario.started [jbool false] Scenario.calm))
              (world (Scenario.started [jbool false] Scenario.calm)))
              N (fun _ => eq_refl) (fun _ _ => eq_refl))
    as (Hc & Hs & Hlog & _ & _ & Hl & Ht & Hagain).
  split; [exact N|]. split; [exact L|]. split; [exact T|].
  split; [exact Hc|]. split; [exact Hs|].
  split; [exact Hlog|]. split; [exact (proj1 (Hl L))|].
  split; [exact (proj1 (Ht T))|]. apply Hagain.
Defined.

Lemma available_iff_below_max_witness :
  Tabbed_Browser.n_requests (Tabbed_Browser.mk 1 1)
  = Tabbed_Browser.max_requests (Tabbed_Browser.mk 1 1)
  /\ fst (Tabbed_Browser.available (Tabbed_Browser.mk 1 1)) = false
  /\ fst (Tabbed_Browser.available (Tabbed_Browser.new 1)) = true.
Proof.
  split; [reflexivity|]. split.
  - apply (proj1 (proj2 (available_iff_below_max (Tabbed_Browser.mk 1 1)))).
    reflexivity.
  - apply (proj1 (available_iff_below_max (Tabbed_Browser.new 1))).
    reflexivity.
Defined.

Lemma setup_failure_releases_nothing_witness :
  addTabsProgressListener_throws Scenario.addTab_fails
    (fresh_listener Scenario.addTab_fails) = None
  /\ setup_throws Scenario.addTab_fails Scenario.target Scenario.malformed
  /\ (let r := Scenario.started [] Scenario.addTab_fails in
      listener (this r) = jobj 0
      /\ In (jobj 0) (progress_listeners (world r))
      /\ ~ In (jobj 0)
            (progress_listeners (world (close (this r) (world r))))).
Proof.
  assert (H1 : addTabsProgressListener_throws Scenario.addTab_fails
                 (fresh_listener Scenario.addTab_fails) = None)
    by reflexivity.
  assert (H2 : setup_throws Scenario.addTab_fails Scenario.target
                            Scenario.malformed)
    by (apply throws_in_addTab; reflexivity).
  split; [exact H1|]. split; [exact H2|].
  destruct (setup_failure_releases_nothing Scenario.STATE_STOP Scenario.target
              (Some Scenario.onComplete) (Some Scenario.onFailure)
              (make_tab Scenario.pool []) Scenario.addTab_fails
              Scenario.malformed H1 H2)
    as (_ & R1 & _ & R2 & _ & _ & _ & _ & R3).
  split; [exact R1|]. split; [exact R2|]. exact (proj1 (proj2 R3)).
Defined.

(* ------------------------------------------------------------------ *)
(** ** Invariants of a whole life *)
(* ------------------------------------------------------------------ *)

Lemma setup_cases (w : World) (target : string) :
  setup_returns w target \/ exists e, setup_throws w target e.
Proof.
  destruct (addTabsProgressListener_throws w (fresh_listener w)) as [e|] eqn:H1;
    [right; exists e; apply throws_in_addTabsProgressListener; exact H1|].
  destruct (addTab_throws w target) as [e|] eqn:H2;
    [right; exists e; apply throws_in_addTab; assumption|].
  destruct (getBrowserForTab_throws w (fresh_tab w)) as [e|] eqn:H3;
    [right; exists e; apply throws_in_getBrowserForTab; assumption|].
  left. constructor; assumption.
Qed.

(** A start leaves the state alone or sets ERROR; it never touches
    [error_code]. *)
Lemma go_state (target : string) (f c : option Function)
      (t : Browser_Tab) (w : World) :
  let r := go (load target) f c t w in
  (state (this r) = state t \/ state (this r) = ERROR)
  /\ error_code (this r) = error_code t.
Proof.
  destruct (setup_cases w target) as [H | [e H]].
  - destruct (go_when_setup_returns target f c t w H) as (_ & H2 & _).
    cbv zeta. rewrite H2. cbn. auto.
  - destruct (go_when_setup_throws target f c t w e H) as (_ & H2 & H3 & _).
    auto.
Qed.

Section Lives.

Variable STATE_STOP : Z.

(** What one step can do to [state] and [error_code]. *)
Lemma perform_state (s : Step) (t : Browser_Tab) (w : World) :
  let r := perform STATE_STOP s t w in
  (state (this r) = state t /\ error_code (this r) = error_code t)
  \/ (state (this r) = ERROR /\ error_code (this r) = error_code t)
  \/ (state (this r) = CLOSED /\ error_code (this r) = error_code t)
  \/ (in_final_state t = false /\ state (this r) = DISPLAYED
      /\ error_code (this r) = error_code t)
  \/ (in_final_state t = false /\ state (this r) = ERROR
      /\ exists st, st <> 0%Z /\ error_code (this r) = Some st).
Proof.
  destruct s as [target f c | [b cr rq flags st|]]; cbn [perform deliver].
  - destruct (go_state target f c t w) as [[H | H] E]; auto.
  - rewrite _progress_eq.
    destruct (in_final_state t) eqn:F; cbn; [auto|].
    destruct (negb (strict_eq (browser t) b) || negb (is_stop STATE_STOP flags));
      cbn; [auto|].
    destruct (Z.eqb_spec st 0) as [-> | N]; cbn.
    + right. right. right. left. auto.
    + right. right. right. right. split; [reflexivity|].
      split; [reflexivity|]. exists st. auto.
  - destruct (state t) eqn:E;
      try (rewrite close_when_CLOSED by exact E; left; auto);
      assert (N : state t <> CLOSED) by (rewrite E; discriminate);
      destruct (close_effect t w N) as (_ & H2 & _); rewrite H2; cbn; auto.
Qed.

(** X1: a final state is never left.  Whatever is done to a tab that is
    DISPLAYED, ERROR or CLOSED (starts, notifications, [close], in any order
    and on any host), it is in one of these three states afterwards. *)
Theorem final_state_is_never_left :
  forall (steps : list Step) (t : Browser_Tab) (w : World),
    in_final_state t = true ->
    in_final_state (fst (perform_all STATE_STOP steps t w)) = true.
Proof.
  induction steps as [|s rest IH]; intros t w F; cbn [perform_all fst];
    [exact F|].
  apply IH.
  destruct (perform_state s t w)
    as [[H _] | [[H _] | [[H _] | [[H _] | [H _]]]]];
    try (rewrite F in H; discriminate);
    try (apply final_states; auto; fail).
  unfold in_final_state in *. rewrite H. exact F.
Qed.

(** X2: no method assigns LOADING.  A tab that is not LOADING never becomes
    so; in particular a new tab whose start succeeded is still in state
    CREATED, and [in_initial_state()] still answers true, until a stop
    notification or a [close] arrives. *)
Theorem state_is_never_LOADING :
  (forall (steps : list Step) (t : Browser_Tab) (w : World),
      state t <> LOADING ->
      state (fst (perform_all STATE_STOP steps t w)) <> LOADING)
  /\ (forall (pool : Tabbed_Browser.t) (args : list jsval) (target : string)
             (f c : option Function) (w : World),
         setup_returns w target ->
         let r := go (load target) f c (make_tab pool args) w in
         state (this r) = CREATED /\ in_initial_state (this r) = true).
Proof.
  split.
  - induction steps as [|s rest IH]; intros t w N; cbn [perform_all fst];
      [exact N|].
    apply IH.
    destruct (perform_state s t w)
      as [[H _] | [[H _] | [[H _] | [(_ & H & _) | (_ & H & _)]]]];
      rewrite H; try discriminate. exact N.
  - intros pool args target f c w H r.
    destruct (go_when_setup_returns target f c (make_tab pool args) w H)
      as (_ & H2 & _).
    fold r in H2. rewrite H2. split; reflexivity.
Qed.

(** What one step can do to [error_code]: leave it, or store the status of
    the failed stop that the step delivers. *)
Lemma perform_error_code (s : Step) (t : Browser_Tab) (w : World) :
  let r := perform STATE_STOP s t w in
  error_code (this r) = error_code t
  \/ exists b cr rq flags st,
       s = arrive (onStateChange b cr rq flags st)
       /\ b = browser t
       /\ is_stop STATE_STOP flags = true
       /\ st <> 0%Z
       /\ error_code (this r) = Some st.
Proof.
  destruct s as [target f c | [b cr rq flags st|]]; cbn [perform deliver].
  - left. apply (proj2 (go_state target f c t w)).
  - rewrite _progress_eq.
    destruct (in_final_state t) eqn:F; cbn; [auto|].
    destruct (strict_eq (browser t) b) eqn:B; cbn; [|auto].
    destruct (is_stop STATE_STOP flags) eqn:P; cbn; [|auto].
    destruct (Z.eqb_spec st 0) as [-> | N]; cbn; [auto|].
    right. exists b, cr, rq, flags, st.
    apply strict_eq_spec in B. auto.
  - left.
    destruct (state t) eqn:E;
      try (rewrite close_when_CLOSED by exact E; reflexivity);
      assert (N : state t <> CLOSED) by (rewrite E; discriminate);
      destruct (close_effect t w N) as (_ & H2 & _); rewrite H2; reflexivity.
Qed.

Lemma error_code_was_delivered (steps : list Step) :
  forall (t : Browser_Tab) (w : World) (k : Z),
    error_code (fst (perform_all STATE_STOP steps t w)) = Some k ->
    error_code t = Some k
    \/ exists b cr rq flags,
         In (arrive (onStateChange b cr rq flags k)) steps
         /\ is_stop STATE_STOP flags = true.
Proof.
  induction steps as [|s rest IH]; intros t w k Hk; cbn [perform_all fst] in Hk;
    [auto|].
  destruct (IH _ _ _ Hk) as [H | (b & cr & rq & flags & I & P)].
  - destruct (perform_error_code s t w)
      as [E | (b & cr & rq & flags & st & -> & _ & P & _ & E)].
    + left. rewrite <- E. exact H.
    + right. rewrite E in H. injection H as ->.
      exists b, cr, rq, flags. split; [left; reflexivity | exact P].
  - right. exists b, cr, rq, flags. split; [right; exact I | exact P].
Qed.

(** X3: [error_code] is only ever the status of a failed stop.  In the life
    of a tab made by [make_tab], whenever [error_code] holds a value, the
    value is not 0, it is the stop status of a stop notification that was
    delivered in that life, and the state is ERROR or CLOSED.  A setup
    failure puts the new tab in state ERROR without an [error_code]. *)
Theorem error_code_is_a_failed_stop_status :
  forall (pool : Tabbed_Browser.t) (args : list jsval) (steps : list Step)
         (w : World),
    let t' := fst (perform_all STATE_STOP steps (make_tab pool args) w) in
    (forall code : Z,
        error_code t' = Some code ->
        code <> 0%Z
        /\ (state t' = ERROR \/ state t' = CLOSED)
        /\ exists b controller browse_request flags,
             In (arrive (onStateChange b controller browse_request flags code))
                steps
             /\ is_stop STATE_STOP flags = true)
    /\ (forall (target : string) (f c : option Function) (e : Exn),
           setup_throws w target e ->
           let r := go (load target) f c (make_tab pool args) w in
           state (this r) = ERROR /\ error_code (this r) = None).
Proof.
  intros pool args steps w t'. split.
  - assert (G : forall steps t w,
               (forall k, error_code t = Some k ->
                          k <> 0%Z /\ (state t = ERROR \/ state t = CLOSED)) ->
               forall k,
                 error_code (fst (perform_all STATE_STOP steps t w)) = Some k ->
                 k <> 0%Z
                 /\ (state (fst (perform_all STATE_STOP steps t w)) = ERROR
                     \/ state (fst (perform_all STATE_STOP steps t w))
                        = CLOSED)).
    { clear. induction steps as [|s rest IH]; intros t w Inv;
        cbn [perform_all fst]; [exact Inv|].
      apply IH. intros k Hk.
      destruct (perform_state s t w)
        as [[H E] | [[H E] | [[H E] | [(F & H & E) | (F & H & st & N & E)]]]];
        rewrite H; rewrite E in Hk.
      - destruct (Inv k Hk) as [K1 K2]. auto.
      - destruct (Inv k Hk) as [K1 K2]. auto.
      - destruct (Inv k Hk) as [K1 K2]. auto.
      - destruct (Inv k Hk) as [_ [K | K]];
          unfold in_final_state in F; rewrite K in F; discriminate.
      - injection Hk as <-. auto. }
    intros code Hc.
    destruct (G steps (make_tab pool args) w
                (fun k Hk => ltac:(discriminate)) code Hc) as [K1 K2].
    split; [exact K1|]. split; [exact K2|].
    destruct (error_code_was_delivered steps _ _ _ Hc) as [H | H];
      [discriminate | exact H].
  - intros target f c e H r.
    destruct (go_when_setup_throws target f c (make_tab pool args) w e H)
      as (_ & S1 & E1 & _).
    split; [exact S1 | exact E1].
Qed.

End Lives.

(* ------------------------------------------------------------------ *)
(** ** What deliveries report *)
(* ------------------------------------------------------------------ *)

Section Reports.

Variable STATE_STOP : Z.

(** The log only grows, and a delivery adds nothing but a call of
    [finally_f] or the removal calls of [close]. *)
Lemma deliver_log (i : Incoming) (t : Browser_Tab) (w : World) :
  exists evs,
    log (world (deliver STATE_STOP i t w)) = log w ++ evs
    /\ forallb (fun ev => is_finally_call ev || is_removeListener_call ev
                          || is_removeTab_call ev) evs = true.
Proof.
  destruct i as [b cr rq flags st|]; cbn [deliver].
  - rewrite _progress_eq.
    destruct (in_final_state t || negb (strict_eq (browser t) b)
              || negb (is_stop STATE_STOP flags)); cbn.
    + exists []. rewrite app_nil_r. auto.
    + destruct (finally_f t) as [g|]; cbn.
      * exists [Call_finally_f g (st =? 0)%Z]. auto.
      * exists []. rewrite app_nil_r. auto.
  - destruct (state t) eqn:E;
      try (rewrite close_when_CLOSED by exact E; exists [];
           rewrite app_nil_r; auto; fail);
      assert (N : state t <> CLOSED) by (rewrite E; discriminate);
      destruct (close_effect t w N) as (_ & _ & H3 & _);
      exists (removal_calls t); (split; [exact H3|]); unfold removal_calls;
      destruct (truthy (listener t)), (truthy (tab t)),
        (truthy (leave_open t)); reflexivity.
Qed.

Lemma deliver_all_log (ins : list Incoming) :
  forall (t : Browser_Tab) (w : World),
  exists evs,
    log (snd (deliver_all STATE_STOP ins t w)) = log w ++ evs
    /\ forallb (fun ev => is_finally_call ev || is_removeListener_call ev
                          || is_removeTab_call ev) evs = true.
Proof.
  induction ins as [|i rest IH]; intros t w; cbn [deliver_all snd].
  - exists []. rewrite app_nil_r. auto.
  - destruct (deliver_log i t w) as (e1 & L1 & F1).
    destruct (IH (this (deliver STATE_STOP i t w))
                 (world (deliver STATE_STOP i t w))) as (e2 & L2 & F2).
    exists (e1 ++ e2). rewrite L2, L1, app_assoc. split; [reflexivity|].
    rewrite forallb_app, F1, F2. reflexivity.
Qed.

(** From a final state, deliveries can only close the tab. *)
Lemma deliver_all_from_final (ins : list Incoming) :
  forall (t : Browser_Tab) (w : World),
    in_final_state t = true ->
    (state (fst (deliver_all STATE_STOP ins t w)) = state t
     \/ state (fst (deliver_all STATE_STOP ins t w)) = CLOSED)
    /\ error_code (fst (deliver_all STATE_STOP ins t w)) = error_code t.
Proof.
  induction ins as [|i rest IH]; intros t w F; cbn [deliver_all fst];
    [auto|].
  destruct (deliver_step STATE_STOP i t w) as [Hfin _].
  destruct (Hfin F) as [F1 _].
  destruct (IH _ (world (deliver STATE_STOP i t w)) F1) as [S1 E1].
  rewrite E1.
  destruct (perform_state STATE_STOP (arrive i) t w)
    as [[H E] | [[H E] | [[H E] | [(F' & _) | (F' & _)]]]];
    cbn [perform] in *;
    try (rewrite F in F'; discriminate).
  - rewrite H in S1. auto.
  - destruct i as [b cr rq flags st|]; cbn [deliver] in *.
    + rewrite _progress_in_final_state in * by exact F.
      cbn [this] in *. auto.
    + destruct (close_completes t w) as [_ C]. rewrite C in H. discriminate.
  - rewrite H in S1. split; [|exact E]. destruct S1; auto.
Qed.

(** X4: a final state reached by a notification has been reported.  Take a
    tab that is not in a final state and has a completion callback [g], and
    any deliveries.  If it ends DISPLAYED, [g( true )] was called, once; if
    it ends ERROR, [g( false )] was called, once, and [error_code] holds the
    status, which is not 0; and if it is still not in a final state, nothing
    has happened at all: the tab and the host are as they were. *)
Theorem final_state_by_notification_is_reported :
  forall (ins : list Incoming) (t : Browser_Tab) (w : World) (g : Function),
    in_final_state t = false ->
    finally_f t = Some g ->
    let e := deliver_all STATE_STOP ins t w in
    (state (fst e) = DISPLAYED ->
     count is_finally_call (log (snd e)) = S (count is_finally_call (log w))
     /\ In (Call_finally_f g true) (log (snd e)))
    /\ (state (fst e) = ERROR ->
        count is_finally_call (log (snd e)) = S (count is_finally_call (log w))
        /\ In (Call_finally_f g false) (log (snd e))
        /\ exists st, st <> 0%Z /\ error_code (fst e) = Some st)
    /\ (in_final_state (fst e) = false -> e = (t, w)).
Proof.
  induction ins as [|i rest IH]; intros t w g F G; cbn zeta.
  { cbn [deliver_all fst snd]. unfold in_final_state in F.
    split; [intros H; rewrite H in F; discriminate|].
    split; [intros H; rewrite H in F; discriminate|]. reflexivity. }
  cbn [deliver_all].
  set (r := deliver STATE_STOP i t w).
  assert (Hr : (this r = t /\ world r = w)
               \/ (in_final_state (this r) = true
                   /\ ((state (this r) = DISPLAYED
                        /\ log (world r) = log w ++ [Call_finally_f g true])
                       \/ (state (this r) = ERROR
                           /\ log (world r) = log w ++ [Call_finally_f g false]
                           /\ exists st, st <> 0%Z
                                         /\ error_code (this r) = Some st)
                       \/ (state (this r) = CLOSED)))).
  { subst r. destruct i as [b cr rq flags st|]; cbn [deliver].
    - rewrite _progress_eq, F, G. cbn [orb].
      destruct (negb (strict_eq (browser t) b)
                || negb (is_stop STATE_STOP flags)); cbn; [auto|].
      right. destruct (Z.eqb_spec st 0) as [-> | N]; cbn.
      + split; [reflexivity|]. left. auto.
      + split; [reflexivity|]. right. left.
        split; [reflexivity|]. split; [reflexivity|]. exists st. auto.
    - destruct (close_completes t w) as [_ C].
      right. split; [apply final_states; auto|]. auto. }
  destruct Hr as [[Ht Hw] | [Fr Hr]].
  - rewrite Ht, Hw. apply (IH t w g F G).
  - destruct (deliver_all_from_final rest (this r) (world r) Fr) as [S1 E1].
    destruct (deliver_all_at_most_once STATE_STOP rest (this r) (world r))
      as [_ C1]. specialize (C1 Fr).
    destruct (deliver_all_log rest (this r) (world r)) as (evs & L1 & _).
    assert (Ff : in_final_state (fst (deliver_all STATE_STOP rest (this r)
                                                  (world r))) = true).
    { destruct S1 as [S1 | S1]; [|apply final_states; auto].
      unfold in_final_state in *. rewrite S1. exact Fr. }
    split; [|split].
    + intros D. destruct Hr as [[Sr Lr] | [(Sr & _) | Sr]];
        try (destruct S1 as [S1 | S1]; rewrite D, ?Sr in S1; discriminate).
      split.
      * rewrite C1, Lr. count_log.
      * rewrite L1, Lr. apply in_or_app. left. apply in_or_app. right.
        left. reflexivity.
    + intros D. destruct Hr as [[Sr Lr] | [(Sr & Lr & st & N & Er) | Sr]];
        try (destruct S1 as [S1 | S1]; rewrite D, ?Sr in S1; discriminate).
      split; [rewrite C1, Lr; count_log|]. split.
      * rewrite L1, Lr. apply in_or_app. left. apply in_or_app. right.
        left. reflexivity.
      * exists st. rewrite E1. auto.
    + intros N. rewrite Ff in N. discriminate.
Qed.

(** X5: only a failed setup reports an error.  Deliveries (notifications of
    any kind and [close]) never call [catch_f], never call [Cu.reportError]
    and never make a setup call on the host: a load that fails by its stop
    status is told to [finally_f] alone. *)
Theorem deliveries_never_call_catch_f :
  forall (ins : list Incoming) (t : Browser_Tab) (w : World),
    let e := deliver_all STATE_STOP ins t w in
    count is_catch_call (log (snd e)) = count is_catch_call (log w)
    /\ count is_reportError_call (log (snd e))
       = count is_reportError_call (log w)
    /\ count is_setup_call (log (snd e)) = count is_setup_call (log w).
Proof.
  intros ins t w e.
  destruct (deliver_all_log ins t w) as (evs & L & A). fold e in L.
  rewrite L, !count_app.
  assert (Z0 : count is_catch_call evs = 0%nat
               /\ count is_reportError_call evs = 0%nat
               /\ count is_setup_call evs = 0%nat).
  { clear L. induction evs as [|ev rest IH]; [auto|].
    cbn in A. apply andb_true_iff in A as [Hev Hrest].
    destruct (IH Hrest) as (I1 & I2 & I3). unfold count in *.
    destruct ev; try discriminate; cbn; auto. }
  destruct Z0 as (Z1 & Z2 & Z3). rewrite Z1, Z2, Z3. lia.
Qed.

End Reports.

(* ------------------------------------------------------------------ *)
(** ** What a start takes from the host and what [close] gives back *)
(* ------------------------------------------------------------------ *)

Lemma without_absent (v : jsval) (l : list jsval) :
  ~ In v l -> without v l = l.
Proof.
  unfold without. induction l as [|x l IH]; intros H; cbn; [reflexivity|].
  destruct (strict_eq x v) eqn:E.
  - apply strict_eq_spec in E. subst x. exfalso. apply H. left. reflexivity.
  - cbn. f_equal. apply IH. intros K. apply H. right. exact K.
Qed.

Lemma without_last (v : jsval) (l : list jsval) :
  ~ In v l -> without v (l ++ [v]) = l.
Proof.
  intros H. unfold without. rewrite filter_app. cbn.
  rewrite strict_eq_refl. cbn. rewrite app_nil_r.
  apply (without_absent v l H).
Qed.

Lemma In_without (x v : jsval) (l : list jsval) :
  In x l -> x <> v -> In x (without v l).
Proof.
  intros H N. unfold without. apply filter_In. split; [exact H|].
  rewrite (strict_eq_neq _ _ N). reflexivity.
Qed.

Lemma go_next_obj (target : string) (f c : option Function)
      (t : Browser_Tab) (w : World) :
  setup_returns w target ->
  next_obj (world (go (load target) f c t w)) = S (S (next_obj w)).
Proof.
  intros [H1 H2 H3]. unfold fresh_listener, fresh_tab in *.
  js_unfold. cbn. rewrite H1. cbn. rewrite H2. cbn. rewrite H3. reflexivity.
Qed.

(** X6: a start followed by [close] gives back what the start took, however
    the setup went.  Take a tab that is not CLOSED and holds no tab handle,
    and a host on which the next two objects are new.  After
    [load( target ).go( f, c )], whether the setup returned or threw at any
    of its three calls, [close] leaves the host's listeners as they were
    before the start, and with [leave_open] false its open tabs too. *)
Theorem start_then_close_restores_the_host :
  forall (target : string) (f c : option Function) (t : Browser_Tab)
         (w : World),
    state t <> CLOSED ->
    truthy (tab t) = false ->
    ~ In (fresh_listener w) (progress_listeners w) ->
    ~ In (fresh_tab w) (open_tabs w) ->
    let r := go (load target) f c t w in
    let r2 := close (this r) (world r) in
    state (this r2) = CLOSED
    /\ truthy (listener (this r2)) = false
    /\ truthy (tab (this r2)) = false
    /\ progress_listeners (world r2) = progress_listeners w
    /\ (truthy (leave_open t) = false -> open_tabs (world r2) = open_tabs w).
Proof.
  intros target f c t w N T FL FT r r2.
  assert (N' : state (this r) <> CLOSED).
  { destruct (go_state target f c t w) as [[H | H] _]; fold r in H;
      rewrite H; [exact N | discriminate]. }
  destruct (close_effect (this r) (world r) N') as (_ & C2 & _ & C4 & C5).
  fold r2 in C2, C4, C5.
  assert (LO : leave_open (this r) = leave_open t)
    by apply (proj1 (leave_open_kept 0 target f c [] t w)).
  rewrite C2, C4, C5, LO. cbn [state listener tab].
  split; [reflexivity|].
  split; [destruct (truthy (listener (this r))) eqn:E; [reflexivity|exact E]|].
  split; [destruct (truthy (tab (this r))) eqn:E; [reflexivity|exact E]|].
  unfold fresh_listener, fresh_tab in *. subst r2. subst r.
  revert FL FT T. clear. js_unfold. cbn.
  destruct (addTabsProgressListener_throws w (jobj (next_obj w))); cbn;
    [|destruct (addTab_throws w target); cbn;
      [|destruct (getBrowserForTab_throws w (jobj (S (next_obj w)))); cbn]];
    destruct c, f; cbn; intros FL FT T; rewrite ?T; cbn;
    (split;
     [ first [apply (without_last _ _ FL) | apply (without_absent _ _ FL)]
     | intros L; rewrite ?L; cbn;
       first [reflexivity | apply (without_last _ _ FT)] ]).
Qed.

(** X7: a second start loses the first listener and the first tab.  When a
    tab that is not CLOSED is started twice and both setups return, the
    fields hold the second listener and the second tab only: [close] removes
    the second listener and nothing else of the first start, so the first
    listener stays registered and the first tab stays open, and as the tab
    is then CLOSED no later delivery changes that. *)
Theorem second_start_leaks_the_first :
  forall (STATE_STOP : Z) (target1 target2 : string)
         (f1 c1 f2 c2 : option Function) (t : Browser_Tab) (w : World),
    state t <> CLOSED ->
    setup_returns w target1 ->
    let r1 := go (load target1) f1 c1 t w in
    setup_returns (world r1) target2 ->
    let r2 := go (load target2) f2 c2 (this r1) (world r1) in
    let r3 := close (this r2) (world r2) in
    fresh_listener (world r1) <> fresh_listener w
    /\ In (fresh_listener w) (progress_listeners (world r3))
    /\ In (fresh_tab w) (open_tabs (world r3))
    /\ count is_removeListener_call (log (world r3))
       = S (count is_removeListener_call (log w))
    /\ In (Call_removeTabsProgressListener (fresh_listener (world r1)))
          (log (world r3))
    /\ (forall ins : list Incoming,
           deliver_all STATE_STOP ins (this r3) (world r3)
           = (this r3, world r3)).
Proof.
  intros STATE_STOP target1 target2 f1 c1 f2 c2 t w N H1 r1 H2 r2 r3.
  destruct (go_when_setup_returns target1 f1 c1 t w H1)
    as (_ & T1 & L1 & P1 & O1). fold r1 in T1, L1, P1, O1.
  destruct (go_when_setup_returns target2 f2 c2 (this r1) (world r1) H2)
    as (_ & T2 & L2 & P2 & O2). fold r2 in T2, L2, P2, O2.
  pose proof (go_next_obj target1 f1 c1 t w H1) as NX. fold r1 in NX.
  assert (D : fresh_listener (world r1) <> fresh_listener w).
  { unfold fresh_listener. rewrite NX. intros E. injection E. lia. }
  assert (D2 : fresh_tab w <> fresh_tab (world r1)).
  { unfold fresh_tab. rewrite NX. intros E. injection E. lia. }
  assert (N2 : state (this r2) <> CLOSED).
  { rewrite T2. cbn [state]. rewrite T1. exact N. }
  destruct (close_effect (this r2) (world r2) N2) as (_ & C2 & C3 & C4 & C5).
  fold r3 in C2, C3, C4, C5.
  split; [exact D|]. split; [|split; [|split; [|split]]].
  - rewrite C4, T2. cbn [listener truthy fresh_listener].
    apply In_without; [|intros E; apply D; symmetry; exact E].
    rewrite P2, P1. apply in_or_app. left. apply in_or_app. right.
    left. reflexivity.
  - rewrite C5, T2. cbn [tab leave_open truthy fresh_tab].
    assert (I : In (fresh_tab w) (open_tabs (world r2))).
    { rewrite O2, O1. apply in_or_app. left. apply in_or_app. right.
      left. reflexivity. }
    destruct (true && negb (truthy (leave_open (this r1)))); [|exact I].
    apply In_without; [exact I | exact D2].
  - rewrite C3, L2, L1. unfold removal_calls. rewrite T2.
    cbn [listener tab leave_open truthy fresh_listener fresh_tab].
    destruct (true && negb (truthy (leave_open (this r1)))); count_log.
  - rewrite C3. unfold removal_calls. rewrite T2.
    cbn [listener truthy fresh_listener].
    apply in_or_app. right. apply in_or_app. left. left. reflexivity.
  - intros ins. apply deliver_all_when_CLOSED. rewrite C2. reflexivity.
Qed.

(** X8: a start after [close] is never undone and never heard of.  On a
    CLOSED tab a start whose setup returns registers a new listener and
    opens a new tab, but the state stays CLOSED: every later notification is
    dropped and every later [close] returns at its first test, so the
    listener stays registered, the tab stays open and no callback is
    called. *)
Theorem start_after_close_is_never_released :
  forall (STATE_STOP : Z) (target : string) (f c : option Function)
         (t : Browser_Tab) (w : World) (ins : list Incoming),
    state t = CLOSED ->
    setup_returns w target ->
    let r := go (load target) f c t w in
    state (this r) = CLOSED
    /\ listener (this r) = fresh_listener w
    /\ tab (this r) = fresh_tab w
    /\ In (fresh_listener w) (progress_listeners (world r))
    /\ In (fresh_tab w) (open_tabs (world r))
    /\ deliver_all STATE_STOP ins (this r) (world r) = (this r, world r).
Proof.
  intros STATE_STOP target f c t w ins C H r.
  destruct (go_when_setup_returns target f c t w H)
    as (_ & T1 & _ & P1 & O1). fold r in T1, P1, O1.
  assert (S1 : state (this r) = CLOSED) by (rewrite T1; exact C).
  split; [exact S1|]. rewrite T1 at 1 2. cbn [listener tab].
  split; [reflexivity|]. split; [reflexivity|].
  split; [rewrite P1; apply in_or_app; right; left; reflexivity|].
  split; [rewrite O1; apply in_or_app; right; left; reflexivity|].
  apply deliver_all_when_CLOSED. exact S1.
Qed.

(** X9: the guard against a second call of [finally_f] is in the progress
    handler alone; a start does not look at the state.  When two starts in
    a row have setups that throw, and [Cu.reportError] and the callbacks
    return, each start reports the error, calls its [catch_f] with the
    exception and its [finally_f] with false, whatever state the tab was in
    before, CLOSED included: the first leaves it in state ERROR, which is
    final, and the second calls back all the same. *)
Theorem each_failed_start_calls_back :
  forall (fx : Faults) (target1 target2 : string) (f1 c1 f2 c2 : Function)
         (t : Browser_Tab) (w : World) (e1 e2 : Exn),
    setup_throws w target1 e1 ->
    reportError_throws fx ("Unexpected exception in Browser_Tab.show(): " ++ toString e1)%string = None ->
    catch_f_throws fx c1 e1 = None ->
    finally_f_throws fx f1 false = None ->
    let r1 := go (load_under fx target1) (Some f1) (Some c1) t w in
    setup_throws (world r1) target2 e2 ->
    reportError_throws fx ("Unexpected exception in Browser_Tab.show(): " ++ toString e2)%string = None ->
    catch_f_throws fx c2 e2 = None ->
    finally_f_throws fx f2 false = None ->
    let r2 := go (load_under fx target2) (Some f2) (Some c2)
                 (this r1) (world r1) in
    state (this r1) = ERROR
    /\ in_final_state (this r1) = true
    /\ state (this r2) = ERROR
    /\ completion r2 = Normal tt
    /\ exists calls1 calls2,
         forallb is_setup_call calls1 = true
         /\ forallb is_setup_call calls2 = true
         /\ log (world r2)
            = log w
              ++ calls1
              ++ [Call_reportError ("Unexpected exception in Browser_Tab.show(): " ++ toString e1)%string;
                  Call_catch_f c1 e1; Call_finally_f f1 false]
              ++ calls2
              ++ [Call_reportError ("Unexpected exception in Browser_Tab.show(): " ++ toString e2)%string;
                  Call_catch_f c2 e2; Call_finally_f f2 false]
         /\ count is_finally_call (log (world r2))
            = S (S (count is_finally_call (log w)))
         /\ count is_catch_call (log (world r2))
            = S (S (count is_catch_call (log w))).
Proof.
  intros fx target1 target2 f1 c1 f2 c2 t w e1 e2
         H1 R1 C1 F1 r1 H2 R2 C2 F2 r2.
  destruct (go_under_when_setup_throws fx target1 f1 c1 t w e1 H1)
    as (S1 & calls1 & Hc1 & _ & G1).
  fold r1 in S1, G1. destruct (G1 R1) as [_ G1n].
  destruct (G1n C1) as [L1 _]. clear G1 G1n.
  destruct (go_under_when_setup_throws fx target2 f2 c2 (this r1) (world r1)
              e2 H2) as (S2 & calls2 & Hc2 & _ & G2).
  fold r2 in S2, G2. destruct (G2 R2) as [_ G2n].
  destruct (G2n C2) as [L2 K2]. rewrite F2 in K2. clear G2 G2n.
  destruct (setup_calls_are_no_reports calls1 Hc1) as (_ & _ & A1 & B1).
  destruct (setup_calls_are_no_reports calls2 Hc2) as (_ & _ & A2 & B2).
  split; [exact S1|]. split; [apply final_states; auto|].
  split; [exact S2|]. split; [exact K2|].
  exists calls1, calls2. split; [exact Hc1|]. split; [exact Hc2|].
  unfold show_message in L1, L2.
  assert (L : log (world r2)
              = log w
                ++ calls1
                ++ [Call_reportError ("Unexpected exception in Browser_Tab.show(): " ++ toString e1)%string;
                    Call_catch_f c1 e1; Call_finally_f f1 false]
                ++ calls2
                ++ [Call_reportError ("Unexpected exception in Browser_Tab.show(): " ++ toString e2)%string;
                    Call_catch_f c2 e2; Call_finally_f f2 false]).
  { rewrite L2, L1, <- !app_assoc. reflexivity. }
  split; [exact L|].
  rewrite L, !count_app, A1, A2, B1, B2. unfold count. cbn. lia.
Qed.

(** X10: a setup that throws stops at the throw.  If
    [addTabsProgressListener] throws, the field [listener] already holds the
    new listener though the host never registered it, no tab is asked for,
    and a following [close] still calls [removeTabsProgressListener] on it.
    If [addTab] throws, [getBrowserForTab] is not called and the fields
    [tab] and [browser] and the host's tabs are as before.  If
    [getBrowserForTab] throws, the new tab is open and held in [tab], and
    [browser] is as before. *)
Theorem setup_stops_at_the_throw :
  forall (target : string) (f c : option Function) (t : Browser_Tab)
         (w : World) (e : Exn),
    let r := go (load target) f c t w in
    (addTabsProgressListener_throws w (fresh_listener w) = Some e ->
     listener (this r) = fresh_listener w
     /\ progress_listeners (world r) = progress_listeners w
     /\ tab (this r) = tab t
     /\ browser (this r) = browser t
     /\ open_tabs (world r) = open_tabs w
     /\ count is_addTab_call (log (world r)) = count is_addTab_call (log w)
     /\ In (Call_removeTabsProgressListener (fresh_listener w))
           (log (world (close (this r) (world r)))))
    /\ (addTabsProgressListener_throws w (fresh_listener w) = None ->
        addTab_throws w target = Some e ->
        tab (this r) = tab t
        /\ browser (this r) = browser t
        /\ open_tabs (world r) = open_tabs w
        /\ count is_getBrowserForTab_call (log (world r))
           = count is_getBrowserForTab_call (log w))
    /\ (addTabsProgressListener_throws w (fresh_listener w) = None ->
        addTab_throws w target = None ->
        getBrowserForTab_throws w (fresh_tab w) = Some e ->
        tab (this r) = fresh_tab w
        /\ browser (this r) = browser t
        /\ open_tabs (world r) = open_tabs w ++ [fresh_tab w]).
Proof.
  intros target f c t w e r.
  split; [|split].
  - intros H1.
    assert (C : In (Call_removeTabsProgressListener (fresh_listener w))
                   (log (world (close (this r) (world r))))).
    { destruct (go_when_setup_throws target f c t w e
                  (throws_in_addTabsProgressListener w target e H1))
        as (_ & S1 & _ & _ & _ & L1 & _). fold r in S1, L1.
      assert (N : state (this r) <> CLOSED) by (rewrite S1; discriminate).
      destruct (close_effect (this r) (world r) N) as (_ & _ & C3 & _).
      rewrite C3. unfold removal_calls. rewrite L1.
      apply in_or_app. right. apply in_or_app. left. left. reflexivity. }
    revert C. generalize (close (this r) (world r)). intros o C.
    subst r. unfold fresh_listener, fresh_tab in *. revert H1 C.
    js_unfold. cbn. intros H1. rewrite H1.
    destruct c, f; cbn; intros C; repeat split; try count_log; exact C.
  - subst r. unfold fresh_listener, fresh_tab.
    intros H1 H2. js_unfold. cbn. rewrite H1. cbn. rewrite H2.
    destruct c, f; cbn; repeat split; count_log.
  - subst r. unfold fresh_listener, fresh_tab.
    intros H1 H2 H3. js_unfold. cbn. rewrite H1. cbn. rewrite H2. cbn.
    rewrite H3. destruct c, f; cbn; repeat split.
Qed.

(** X11: a tab that was never started never touches the host.  Whatever is
    delivered to a tab as [make_tab] made it, stop notifications and
    [close] included, the host is left exactly as it was: no host call and
    no callback. *)
Theorem unstarted_tab_leaves_the_host_alone :
  forall (STATE_STOP : Z) (pool : Tabbed_Browser.t) (args : list jsval)
         (ins : list Incoming) (w : World),
    snd (deliver_all STATE_STOP ins (make_tab pool args) w) = w.
Proof.
  intros STATE_STOP pool args ins w.
  assert (G : forall ins t,
             truthy (listener t) = false -> truthy (tab t) = false ->
             finally_f t = None ->
             snd (deliver_all STATE_STOP ins t w) = w).
  { clear. induction ins as [|i rest IH]; intros t L T F;
      cbn [deliver_all snd]; [reflexivity|].
    assert (K : world (deliver STATE_STOP i t w) = w
                /\ truthy (listener (this (deliver STATE_STOP i t w))) = false
                /\ truthy (tab (this (deliver STATE_STOP i t w))) = false
                /\ finally_f (this (deliver STATE_STOP i t w)) = None).
    { destruct i as [b cr rq flags st|]; cbn [deliver].
      - rewrite _progress_eq, F.
        destruct (in_final_state t || negb (strict_eq (browser t) b)
                  || negb (is_stop STATE_STOP flags)); cbn; [auto|].
        destruct (st =? 0)%Z; cbn; auto.
      - destruct t as [lo tb l b f c s ec]. cbn in L, T, F. subst f.
        js_unfold. destruct s; cbn; rewrite ?L; cbn; rewrite ?T; cbn; auto. }
    destruct K as (K1 & K2 & K3 & K4). rewrite K1. apply IH; assumption. }
  apply G; reflexivity.
Qed.

(* ------------------------------------------------------------------ *)
(** ** The stop test and the 32-bit wrap of [&] *)
(* ------------------------------------------------------------------ *)

Lemma to_int32_range (z : Z) :
  (-2147483648 <= to_int32 z < 2147483648)%Z.
Proof.
  unfold to_int32.
  pose proof (Z.mod_pos_bound (z + 2147483648) 4294967296 eq_refl). lia.
Qed.

(** From bit 31 on, the bits of a 32-bit value repeat its sign. *)
Lemma to_int32_high_bits (z n : Z) :
  (31 <= n)%Z -> Z.testbit (to_int32 z) n = Z.testbit (to_int32 z) 31.
Proof.
  intros Hn. pose proof (to_int32_range z) as R.
  assert (G : forall m, (31 <= m)%Z ->
                        Z.testbit (to_int32 z) m = (to_int32 z <? 0)%Z).
  { intros m Hm. destruct (Z.ltb_spec (to_int32 z) 0) as [Neg | Pos].
    - apply Z.bits_above_log2_neg; [exact Neg|].
      destruct (Z.eq_dec (Z.pred (- to_int32 z)) 0) as [E | E].
      + rewrite E. cbn. lia.
      + apply Z.lt_le_trans with 31%Z; [|exact Hm].
        apply Z.log2_lt_pow2; [lia|]. change (2 ^ 31)%Z with 2147483648%Z.
        lia.
    - destruct (Z.eq_dec (to_int32 z) 0) as [E | E].
      + rewrite E. apply Z.bits_0.
      + apply Z.bits_above_log2; [exact Pos|].
        apply Z.lt_le_trans with 31%Z; [|exact Hm].
        apply Z.log2_lt_pow2; [lia|]. change (2 ^ 31)%Z with 2147483648%Z.
        lia. }
  rewrite (G n Hn), (G 31%Z) by lia. reflexivity.
Qed.

(** X12: [state & STATE_STOP] is not zero exactly when the flags and the
    constant share one of the bits 0 to 31: the wrap of [&] to 32 bits makes
    the test blind to anything above. *)
Theorem is_stop_iff_shared_low_bit :
  forall (STATE_STOP flags : Z),
    is_stop STATE_STOP flags = true
    <-> exists n, (0 <= n < 32)%Z
                  /\ Z.testbit flags n = true
                  /\ Z.testbit STATE_STOP n = true.
Proof.
  intros STATE_STOP flags. unfold is_stop, bit_and.
  rewrite negb_true_iff, Z.eqb_neq. split.
  - intros NZ.
    destruct (existsb (fun k => Z.testbit flags (Z.of_nat k)
                                && Z.testbit STATE_STOP (Z.of_nat k))
                      (seq 0 32)) eqn:E.
    + apply existsb_exists in E as (k & Hk & Hb).
      apply in_seq in Hk. apply andb_true_iff in Hb as [B1 B2].
      exists (Z.of_nat k). split; [lia|]. auto.
    + exfalso. apply NZ. apply Z.bits_inj'. intros n Hn.
      rewrite Z.bits_0, Z.land_spec.
      assert (Low : forall m, (0 <= m < 32)%Z ->
                Z.testbit (to_int32 flags) m
                && Z.testbit (to_int32 STATE_STOP) m = false).
      { intros m Hm. rewrite !to_int32_low_bits by exact Hm.
        destruct (Z.testbit flags m && Z.testbit STATE_STOP m) eqn:B;
          [|reflexivity].
        assert (X : existsb (fun k => Z.testbit flags (Z.of_nat k)
                                      && Z.testbit STATE_STOP (Z.of_nat k))
                            (seq 0 32) = true).
        { apply existsb_exists. exists (Z.to_nat m). split.
          - apply in_seq. lia.
          - rewrite Z2Nat.id by lia. exact B. }
        rewrite X in E. discriminate. }
      destruct (Z_lt_le_dec n 32) as [Lt | Ge].
      * apply Low. lia.
      * rewrite (to_int32_high_bits flags n),
          (to_int32_high_bits STATE_STOP n) by lia.
        apply Low. lia.
  - intros (n & Hn & B1 & B2) E.
    assert (T : Z.testbit (Z.land (to_int32 flags) (to_int32 STATE_STOP)) n
                = true).
    { rewrite Z.land_spec, !to_int32_low_bits by exact Hn.
      rewrite B1, B2. reflexivity. }
    rewrite E, Z.bits_0 in T. discriminate.
Qed.

(* ------------------------------------------------------------------ *)
(** ** Two starts *)
(* ------------------------------------------------------------------ *)

(** X13: a second start replaces the callbacks and the pane of the first.
    When a tab that is not in a final state is started twice, both setups
    return and the two panes differ, a stop notification for the first pane
    is ignored, so that the first load is never reported, and a stop
    notification for the second pane calls the second completion callback,
    not the first. *)
Theorem second_start_replaces_the_first :
  forall (STATE_STOP : Z) (target1 target2 : string) (f1 f2 : Function)
         (c1 c2 : option Function) (t : Browser_Tab) (w : World)
         (controller browse_request : jsval) (flags stop_status : Z),
    in_final_state t = false ->
    setup_returns w target1 ->
    let r1 := go (load target1) (Some f1) c1 t w in
    setup_returns (world r1) target2 ->
    let r2 := go (load target2) (Some f2) c2 (this r1) (world r1) in
    browser (this r1) <> browser (this r2) ->
    is_stop STATE_STOP flags = true ->
    _progress STATE_STOP (browser (this r1)) controller browse_request
              flags stop_status (this r2) (world r2)
    = mkOutcome (Normal tt) (this r2) (world r2)
    /\ log (world (_progress STATE_STOP (browser (this r2)) controller
                             browse_request flags stop_status
                             (this r2) (world r2)))
       = log (world r2) ++ [Call_finally_f f2 (stop_status =? 0)%Z].
Proof.
  intros STATE_STOP target1 target2 f1 f2 c1 c2 t w cr rq flags st
         F H1 r1 H2 r2 D Hstop.
  destruct (go_when_setup_returns target1 (Some f1) c1 t w H1)
    as (_ & T1 & _). fold r1 in T1.
  destruct (go_when_setup_returns target2 (Some f2) c2 (this r1) (world r1) H2)
    as (_ & T2 & _). fold r2 in T2.
  assert (F2 : in_final_state (this r2) = false).
  { unfold in_final_state in *. rewrite T2. cbn [state]. rewrite T1. exact F. }
  assert (G2 : finally_f (this r2) = Some f2) by (rewrite T2; reflexivity).
  split.
  - rewrite _progress_eq, F2.
    rewrite (strict_eq_neq (browser (this r2)) (browser (this r1)))
      by (intros E; apply D; symmetry; exact E).
    reflexivity.
  - rewrite _progress_eq, F2, strict_eq_refl, Hstop, G2. reflexivity.
Qed.

(* ------------------------------------------------------------------ *)
(** ** Further runs on the scenario host *)
(* ------------------------------------------------------------------ *)

Lemma final_state_is_never_left_witness :
  let t := this (Scenario.started [] Scenario.addTab_fails) in
  let stop := onStateChange undefined null null 16 0 in
  in_final_state t = true
  /\ in_final_state
       (fst (perform_all Scenario.STATE_STOP
               [arrive stop; start Scenario.target None None;
                arrive close_call; arrive stop]
               t Scenario.calm)) = true.
Proof.
  cbv zeta.
  assert (F : in_final_state (this (Scenario.started [] Scenario.addTab_fails))
              = true) by reflexivity.
  split; [exact F|].
  exact (final_state_is_never_left Scenario.STATE_STOP _ _ Scenario.calm F).
Defined.

Lemma state_is_never_LOADING_witness :
  state (make_tab Scenario.pool []) <> LOADING
  /\ setup_returns Scenario.calm Scenario.target
  /\ state (fst (perform_all Scenario.STATE_STOP
                   [start Scenario.target None None;
                    arrive (onStateChange (jobj 1001) null null 16 0)]
                   (make_tab Scenario.pool []) Scenario.calm)) <> LOADING
  /\ in_initial_state (this (Scenario.started [] Scenario.calm)) = true.
Proof.
  assert (N : state (make_tab Scenario.pool []) <> LOADING) by discriminate.
  assert (H : setup_returns Scenario.calm Scenario.target)
    by (constructor; reflexivity).
  split; [exact N|]. split; [exact H|]. split.
  - exact (proj1 (state_is_never_LOADING Scenario.STATE_STOP) _ _ _ N).
  - exact (proj2 (proj2 (state_is_never_LOADING Scenario.STATE_STOP)
                        Scenario.pool [] Scenario.target
                        (Some Scenario.onComplete) (Some Scenario.onFailure)
                        Scenario.calm H)).
Defined.

Lemma error_code_is_a_failed_stop_status_witness :
  let steps := [start Scenario.target None None;
                arrive (onStateChange (jobj 1001) null null 16
                                      Scenario.failure_code);
                arrive close_call] in
  let t' := fst (perform_all Scenario.STATE_STOP steps
                             (make_tab Scenario.pool []) Scenario.calm) in
  error_code t' = Some Scenario.failure_code
  /\ Scenario.failure_code <> 0%Z
  /\ (state t' = ERROR \/ state t' = CLOSED)
  /\ setup_throws Scenario.addTab_fails Scenario.target Scenario.malformed
  /\ error_code (this (Scenario.started [] Scenario.addTab_fails)) = None.
Proof.
  cbv zeta.
  assert (E : error_code
                (fst (perform_all Scenario.STATE_STOP
                        [start Scenario.target None None;
                         arrive (onStateChange (jobj 1001) null null 16
                                               Scenario.failure_code);
                         arrive close_call]
                        (make_tab Scenario.pool []) Scenario.calm))
              = Some Scenario.failure_code) by reflexivity.
  assert (H : setup_throws Scenario.addTab_fails Scenario.target
                           Scenario.malformed)
    by (apply throws_in_addTab; reflexivity).
  destruct (proj1 (error_code_is_a_failed_stop_status Scenario.STATE_STOP
                     Scenario.pool []
                     [start Scenario.target None None;
                      arrive (onStateChange (jobj 1001) null null 16
                                            Scenario.failure_code);
                      arrive close_call]
                     Scenario.calm) Scenario.failure_code E)
    as (R1 & R2 & _).
  split; [exact E|]. split; [exact R1|]. split; [exact R2|].
  split; [exact H|].
  exact (proj2 (proj2 (error_code_is_a_failed_stop_status Scenario.STATE_STOP
                         Scenario.pool [] [] Scenario.addTab_fails)
                      Scenario.target (Some Scenario.onComplete)
                      (Some Scenario.onFailure) Scenario.malformed H)).
Defined.

Lemma final_state_by_notification_is_reported_witness :
  let r := Scenario.started [] Scenario.calm in
  let ins := [onStateChange (jobj 2001) null null 16 0;
              onStateChange (jobj 1001) null null 1 0;
              onStateChange (jobj 1001) null null 16 0;
              onStateChange (jobj 1001) null null 16 Scenario.failure_code] in
  let e := deliver_all Scenario.STATE_STOP ins (this r) (world r) in
  in_final_state (this r) = false
  /\ finally_f (this r) = Some Scenario.onComplete
  /\ state (fst e) = DISPLAYED
  /\ count is_finally_call (log (snd e))
     = S (count is_finally_call (log (world r)))
  /\ In (Call_finally_f Scenario.onComplete true) (log (snd e)).
Proof.
  cbv zeta.
  assert (F : in_final_state (this (Scenario.started [] Scenario.calm)) = false)
    by reflexivity.
  assert (G : finally_f (this (Scenario.started [] Scenario.calm))
              = Some Scenario.onComplete) by reflexivity.
  split; [exact F|]. split; [exact G|]. split; [reflexivity|].
  destruct (final_state_by_notification_is_reported Scenario.STATE_STOP
              [onStateChange (jobj 2001) null null 16 0;
               onStateChange (jobj 1001) null null 1 0;
               onStateChange (jobj 1001) null null 16 0;
               onStateChange (jobj 1001) null null 16 Scenario.failure_code]
              (this (Scenario.started [] Scenario.calm))
              (world (Scenario.started [] Scenario.calm))
              Scenario.onComplete F G) as (R & _).
  exact (R eq_refl).
Defined.

Lemma start_then_close_restores_the_host_witness :
  let t := make_tab Scenario.pool [jbool false] in
  let w := Scenario.getBrowserForTab_fails in
  let r := go (load Scenario.target) None None t w in
  let r2 := close (this r) (world r) in
  state t <> CLOSED
  /\ truthy (tab t) = false
  /\ ~ In (fresh_listener w) (progress_listeners w)
  /\ ~ In (fresh_tab w) (open_tabs w)
  /\ progress_listeners (world r) = [jobj 0]
  /\ open_tabs (world r) = [jobj 1]
  /\ progress_listeners (world r2) = progress_listeners w
  /\ open_tabs (world r2) = open_tabs w.
Proof.
  cbv zeta.
  assert (N : state (make_tab Scenario.pool [jbool false]) <> CLOSED)
    by discriminate.
  assert (T : truthy (tab (make_tab Scenario.pool [jbool false])) = false)
    by reflexivity.
  assert (FL : ~ In (fresh_listener Scenario.getBrowserForTab_fails)
                    (progress_listeners Scenario.getBrowserForTab_fails))
    by (intros []).
  assert (FT : ~ In (fresh_tab Scenario.getBrowserForTab_fails)
                    (open_tabs Scenario.getBrowserForTab_fails))
    by (intros []).
  destruct (start_then_close_restores_the_host Scenario.target None None
              (make_tab Scenario.pool [jbool false])
              Scenario.getBrowserForTab_fails N T FL FT)
    as (_ & _ & _ & R1 & R2).
  split; [exact N|]. split; [exact T|]. split; [exact FL|].
  split; [exact FT|]. split; [reflexivity|]. split; [reflexivity|].
  split; [exact R1 | exact (R2 eq_refl)].
Defined.

Lemma second_start_leaks_the_first_witness :
  let t := make_tab Scenario.pool [jbool false] in
  let r1 := go (load Scenario.target) None None t Scenario.calm in
  let r2 := go (load Scenario.target) None None (this r1) (world r1) in
  let r3 := close (this r2) (world r2) in
  state t <> CLOSED
  /\ setup_returns Scenario.calm Scenario.target
  /\ setup_returns (world r1) Scenario.target
  /\ In (jobj 0) (progress_listeners (world r3))
  /\ In (jobj 1) (open_tabs (world r3)).
Proof.
  cbv zeta.
  assert (N : state (make_tab Scenario.pool [jbool false]) <> CLOSED)
    by discriminate.
  assert (H1 : setup_returns Scenario.calm Scenario.target)
    by (constructor; reflexivity).
  assert (H2 : setup_returns
                 (world (go (load Scenario.target) None None
                            (make_tab Scenario.pool [jbool false])
                            Scenario.calm))
                 Scenario.target)
    by (constructor; reflexivity).
  destruct (second_start_leaks_the_first Scenario.STATE_STOP Scenario.target
              Scenario.target None None None None
              (make_tab Scenario.pool [jbool false]) Scenario.calm N H1 H2)
    as (_ & R1 & R2 & _).
  split; [exact N|]. split; [exact H1|]. split; [exact H2|].
  split; [exact R1 | exact R2].
Defined.

Lemma start_after_close_is_never_released_witness :
  let t := this (close (make_tab Scenario.pool [jbool false]) Scenario.calm) in
  let r := go (load Scenario.target) (Some Scenario.onComplete)
              (Some Scenario.onFailure) t Scenario.calm in
  state t = CLOSED
  /\ setup_returns Scenario.calm Scenario.target
  /\ In (jobj 0) (progress_listeners (world r))
  /\ deliver_all Scenario.STATE_STOP
       [onStateChange (jobj 1001) null null 16 0; close_call]
       (this r) (world r)
     = (this r, world r).
Proof.
  cbv zeta.
  assert (C : state (this (close (make_tab Scenario.pool [jbool false])
                                 Scenario.calm)) = CLOSED) by reflexivity.
  assert (H : setup_returns Scenario.calm Scenario.target)
    by (constructor; reflexivity).
  destruct (start_after_close_is_never_released Scenario.STATE_STOP
              Scenario.target (Some Scenario.onComplete)
              (Some Scenario.onFailure) _ Scenario.calm
              [onStateChange (jobj 1001) null null 16 0; close_call] C H)
    as (_ & _ & _ & R1 & _ & R2).
  split; [exact C|]. split; [exact H|]. split; [exact R1 | exact R2].
Defined.

Lemma each_failed_start_calls_back_witness :
  let t := this (close (make_tab Scenario.pool []) Scenario.calm) in
  let r1 := go (load_under no_faults Scenario.target)
               (Some Scenario.onComplete) (Some Scenario.onFailure) t
               Scenario.addTab_fails in
  let r2 := go (load_under no_faults Scenario.target)
               (Some Scenario.onComplete) (Some Scenario.onFailure)
               (this r1) (world r1) in
  setup_throws Scenario.addTab_fails Scenario.target Scenario.malformed
  /\ setup_throws (world r1) Scenario.target Scenario.malformed
  /\ state t = CLOSED
  /\ state (this r1) = ERROR
  /\ completion r2 = Normal tt
  /\ count is_finally_call (log (world r2)) = 2%nat.
Proof.
  cbv zeta.
  assert (H1 : setup_throws Scenario.addTab_fails Scenario.target
                            Scenario.malformed)
    by (apply throws_in_addTab; reflexivity).
  assert (H2 : setup_throws
                 (world (go (load_under no_faults Scenario.target)
                            (Some Scenario.onComplete)
                            (Some Scenario.onFailure)
                            (this (close (make_tab Scenario.pool [])
                                         Scenario.calm))
                            Scenario.addTab_fails))
                 Scenario.target Scenario.malformed)
    by (apply throws_in_addTab; reflexivity).
  destruct (each_failed_start_calls_back no_faults Scenario.target
              Scenario.target Scenario.onComplete Scenario.onFailure
              Scenario.onComplete Scenario.onFailure
              (this (close (make_tab Scenario.pool []) Scenario.calm))
              Scenario.addTab_fails Scenario.malformed Scenario.malformed
              H1 eq_refl eq_refl eq_refl H2 eq_refl eq_refl eq_refl)
    as (R1 & _ & _ & R2 & _).
  split; [exact H1|]. split; [exact H2|]. split; [reflexivity|].
  split; [exact R1|]. split; [exact R2|]. reflexivity.
Defined.

Lemma setup_stops_at_the_throw_witness :
  let t := make_tab Scenario.pool [] in
  let ra := go (load Scenario.target) None None t
               Scenario.addTabsProgressListener_fails in
  let rb := go (load Scenario.target) None None t Scenario.addTab_fails in
  let rc := go (load Scenario.target) None None t
               Scenario.getBrowserForTab_fails in
  (listener (this ra) = jobj 0 /\ progress_listeners (world ra) = [])
  /\ (tab (this rb) = null /\ open_tabs (world rb) = [])
  /\ (tab (this rc) = jobj 1 /\ browser (this rc) = undefined).
Proof.
  cbv zeta. split; [|split].
  - destruct (proj1 (setup_stops_at_the_throw Scenario.target None None
                       (make_tab Scenario.pool [])
                       Scenario.addTabsProgressListener_fails
                       Scenario.malformed) eq_refl) as (R1 & R2 & _).
    split; [exact R1 | exact R2].
  - destruct (proj1 (proj2 (setup_stops_at_the_throw Scenario.target None None
                       (make_tab Scenario.pool []) Scenario.addTab_fails
                       Scenario.malformed)) eq_refl eq_refl)
      as (R1 & _ & R2 & _).
    split; [exact R1 | exact R2].
  - destruct (proj2 (proj2 (setup_stops_at_the_throw Scenario.target None None
                       (make_tab Scenario.pool [])
                       Scenario.getBrowserForTab_fails
                       Scenario.malformed)) eq_refl eq_refl eq_refl)
      as (R1 & R2 & _).
    split; [exact R1 | exact R2].
Defined.

Lemma is_stop_iff_shared_low_bit_witness :
  (exists n, (0 <= n < 32)%Z
             /\ Z.testbit 262160 n = true
             /\ Z.testbit Scenario.STATE_STOP n = true)
  /\ is_stop Scenario.STATE_STOP 262160 = true
  /\ is_stop Scenario.STATE_STOP (16 * 4294967296) = false.
Proof.
  assert (H : exists n, (0 <= n < 32)%Z
                        /\ Z.testbit 262160 n = true
                        /\ Z.testbit Scenario.STATE_STOP n = true).
  { exists 4%Z. split; [lia|]. split; reflexivity. }
  split; [exact H|]. split.
  - exact (proj2 (is_stop_iff_shared_low_bit Scenario.STATE_STOP 262160) H).
  - reflexivity.
Defined.

Lemma second_start_replaces_the_first_witness :
  let t := make_tab Scenario.pool [] in
  let r1 := go (load Scenario.target) (Some Scenario.onFailure) None t
               Scenario.calm in
  let r2 := go (load Scenario.target) (Some Scenario.onComplete) None
               (this r1) (world r1) in
  in_final_state t = false
  /\ setup_returns Scenario.calm Scenario.target
  /\ setup_returns (world r1) Scenario.target
  /\ browser (this r1) <> browser (this r2)
  /\ is_stop Scenario.STATE_STOP 16 = true
  /\ _progress Scenario.STATE_STOP (jobj 1001) null null 16 0
               (this r2) (world r2)
     = mkOutcome (Normal tt) (this r2) (world r2)
  /\ log (world (_progress Scenario.STATE_STOP (jobj 1003) null null 16 0
                           (this r2) (world r2)))
     = log (world r2) ++ [Call_finally_f Scenario.onComplete true].
Proof.
  cbv zeta.
  assert (F : in_final_state (make_tab Scenario.pool []) = false)
    by reflexivity.
  assert (H1 : setup_returns Scenario.calm Scenario.target)
    by (constructor; reflexivity).
  assert (H2 : setup_returns
                 (world (go (load Scenario.target) (Some Scenario.onFailure)
                            None (make_tab Scenario.pool []) Scenario.calm))
                 Scenario.target)
    by (constructor; reflexivity).
  assert (D : browser (this (go (load Scenario.target)
                                (Some Scenario.onFailure) None
                                (make_tab Scenario.pool []) Scenario.calm))
              <> browser
                   (this (go (load Scenario.target) (Some Scenario.onComplete)
                             None
                             (this (go (load Scenario.target)
                                       (Some Scenario.onFailure) None
                                       (make_tab Scenario.pool [])
                                       Scenario.calm))
                             (world (go (load Scenario.target)
                                        (Some Scenario.onFailure) None
                                        (make_tab Scenario.pool [])
                                        Scenario.calm)))))
    by discriminate.
  assert (S : is_stop Scenario.STATE_STOP 16 = true) by reflexivity.
  split; [exact F|]. split; [exact H1|]. split; [exact H2|].
  split; [exact D|]. split; [exact S|].
  exact (second_start_replaces_the_first Scenario.STATE_STOP Scenario.target
           Scenario.target Scenario.onFailure Scenario.onComplete None None
           (make_tab Scenario.pool []) Scenario.calm null null 16 0
           F H1 H2 D S).
Defined.
